(** * Debt scoring of src/backend/gitlab_debt_scanner_agent.py

    Shallow embedding of the metric collectors and the debt-score
    calculator of the repository scanner.  Python floats are modelled as
    exact rationals [Q]; metric dictionaries are [gmap string value]. *)

From Stdlib Require Import QArith Qminmax Lqa String Ascii ZArith Lia.
From stdpp Require Import base gmap strings list sorting.

Open Scope Q_scope.

(** ** Python values stored in a metrics dictionary *)

(** A metric is a number (int or float) or a bool (an int subclass). *)
Inductive value :=
| VNum (q : Q)
| VBool (b : bool).

(** Numeric view of a value, as used by [<], [>], [*]: [True] is 1. *)
Definition num (v : value) : Q :=
  match v with
  | VNum q => q
  | VBool b => if b then 1 else 0
  end.

(** Python truthiness. *)
Definition truthy (v : value) : bool :=
  match v with
  | VNum q => negb (Qeq_bool q 0)
  | VBool b => b
  end.

(** A metrics dictionary [Dict[str, Any]]. *)
Abbreviation metrics := (gmap string value).

(** [d.get(k, default)] *)
Definition get (m : metrics) (k : string) (default : value) : value :=
  match m !! k with
  | Some v => v
  | None => default
  end.

(** Strict comparison [a < b] on numbers. *)
Definition qlt (a b : Q) : bool :=
  match a ?= b with Lt => true | _ => false end.

(** Python [min(a, b)]: returns [a] unless [b < a]. *)
Definition pymin (a b : Q) : Q := if qlt b a then b else a.

(** Python [max(a, b)]: returns [a] unless [b > a]. *)
Definition pymax (a b : Q) : Q := if qlt a b then b else a.

(** ** DebtScoreCalculator *)

Record DebtMetrics := {
  code_quality_score : Q;
  architecture_score : Q;
  infrastructure_score : Q;
  operations_score : Q;
  overall_score : Q;
  raw_metrics : gmap string metrics
}.

(** [self.weights] of [DebtScoreCalculator.__init__]. *)
Definition weight_code_quality : Q := 0.25.
Definition weight_architecture : Q := 0.30.
Definition weight_infrastructure : Q := 0.25.
Definition weight_operations : Q := 0.20.

(** *** _calculate_code_quality_score, one definition per penalty block *)

(** Test coverage penalty. *)
Definition test_coverage_penalty (test_ratio : Q) : Q :=
  if qlt test_ratio 0.1 then 1.5
  else if qlt test_ratio 0.3 then 1.0
  else if qlt test_ratio 0.5 then 0.5
  else 0.

(** File size penalty. *)
Definition file_size_penalty (avg_lines : Q) : Q :=
  if qlt 500 avg_lines then 1.0
  else if qlt 300 avg_lines then 0.5
  else 0.

(** Large files penalty. *)
Definition large_files_penalty (large_file_ratio : Q) : Q :=
  if qlt 0.3 large_file_ratio then 1.0
  else if qlt 0.1 large_file_ratio then 0.5
  else 0.

(** Deep nesting penalty. *)
Definition deep_nesting_penalty (deep_nesting_ratio : Q) : Q :=
  if qlt 0.2 deep_nesting_ratio then 0.5 else 0.

(** Language-specific penalty
    ([if 'python_flake8_issues' in metrics and metrics[...] > 0]). *)
Definition flake8_penalty (m : metrics) (total_files : Q) : Q :=
  match m !! "python_flake8_issues"%string with
  | Some v =>
      if qlt 0 (num v) then
        let issues_per_file := num v / total_files in
        if qlt 5 issues_per_file then 1.0
        else if qlt 2 issues_per_file then 0.5
        else 0
      else 0
  | None => 0
  end.

(** Documentation penalty. *)
Definition documentation_penalty (doc_ratio : Q) : Q :=
  if qlt doc_ratio 0.2 then 1.0
  else if qlt doc_ratio 0.5 then 0.5
  else 0.

Definition _calculate_code_quality_score (m : metrics) : Q :=
  let score := 0 in
  let test_ratio := num (get m "test_to_code_ratio" (VNum 0)) in
  let score := score + test_coverage_penalty test_ratio in
  let avg_lines := num (get m "avg_lines_per_file" (VNum 0)) in
  let score := score + file_size_penalty avg_lines in
  let large_files := num (get m "large_files_count" (VNum 0)) in
  let total_files := pymax (num (get m "code_files" (VNum 1))) 1 in
  let large_file_ratio := large_files / total_files in
  let score := score + large_files_penalty large_file_ratio in
  let deep_nesting := num (get m "deep_nesting_files" (VNum 0)) in
  let deep_nesting_ratio := deep_nesting / total_files in
  let score := score + deep_nesting_penalty deep_nesting_ratio in
  let score := score + flake8_penalty m total_files in
  let doc_ratio := num (get m "code_documentation_ratio" (VNum 1.0)) in
  let score := score + documentation_penalty doc_ratio in
  pymin score 4.0.

(** *** _calculate_architecture_score *)

Definition directory_depth_penalty (max_depth : Q) : Q :=
  if qlt 8 max_depth then 1.0
  else if qlt 6 max_depth then 0.5
  else 0.

Definition _calculate_architecture_score (m : metrics) : Q :=
  let score := 0 in
  let max_depth := num (get m "max_directory_depth" (VNum 0)) in
  let score := score + directory_depth_penalty max_depth in
  let patterns := ["has_mvc_pattern"; "has_layered_pattern";
                   "has_microservices_pattern";
                   "has_clean_architecture_pattern"]%string in
  let has_pattern := existsb (fun p => truthy (get m p (VBool false))) patterns in
  let score := if negb has_pattern then score + 1.0 else score in
  let score :=
    if negb (truthy (get m "has_docker_config" (VBool false)))
       && negb (truthy (get m "has_kubernetes_config" (VBool false)))
    then score + 0.5 else score in
  let score :=
    if negb (truthy (get m "has_api_specifications" (VBool false)))
    then score + 0.5 else score in
  let score :=
    if negb (truthy (get m "has_readme" (VBool false))) then score + 1.0
    else if qlt (num (get m "readme_length" (VNum 0))) 500 then score + 0.5
    else score in
  let score :=
    if qlt (num (get m "documentation_files" (VNum 0))) 2
    then score + 0.5 else score in
  pymin score 4.0.

(** *** _calculate_infrastructure_score *)

(** CI/CD setup and pipeline success rate. *)
Definition cicd_penalty (m : metrics) : Q :=
  if negb (truthy (get m "has_cicd_config" (VBool false))) then 2.0
  else
    let success_rate := num (get m "pipeline_success_rate" (VNum 1.0)) in
    if qlt success_rate 0.7 then 1.5
    else if qlt success_rate 0.9 then 0.5
    else 0.

(** Security issues. *)
Definition secrets_penalty (potential_secrets : Q) : Q :=
  if qlt 0 potential_secrets then pymin (potential_secrets * 0.5) 2.0 else 0.

Definition _calculate_infrastructure_score (m : metrics) : Q :=
  let score := 0 in
  let score := score + cicd_penalty m in
  let potential_secrets := num (get m "potential_hardcoded_secrets" (VNum 0)) in
  let score := score + secrets_penalty potential_secrets in
  let score :=
    if negb (truthy (get m "has_gitignore" (VBool false)))
    then score + 0.5 else score in
  let score :=
    if negb (truthy (get m "is_containerized" (VBool false)))
    then score + 1.0 else score in
  let monitoring_configs := ["has_prometheus_config"; "has_grafana_config";
                             "has_elasticsearch_config"]%string in
  let has_monitoring :=
    existsb (fun c => truthy (get m c (VBool false))) monitoring_configs in
  let score := if negb has_monitoring then score + 1.0 else score in
  let logging_ratio := num (get m "logging_usage_ratio" (VNum 0)) in
  let score := if qlt logging_ratio 0.3 then score + 0.5 else score in
  pymin score 4.0.

(** *** _calculate_operations_score *)

Definition velocity_penalty (commits_per_week : Q) : Q :=
  if qlt commits_per_week 1 then 1.5
  else if qlt commits_per_week 3 then 0.5
  else 0.

Definition deployment_frequency_penalty (deployments_per_week : Q) : Q :=
  if qlt deployments_per_week 0.25 then 1.5
  else if qlt deployments_per_week 1 then 1.0
  else 0.

(** Maintenance burden: the three branches in the source's order. *)
Definition maintenance_penalty (maintenance_percentage : Q) : Q :=
  if qlt 60 maintenance_percentage then 1.5
  else if qlt 40 maintenance_percentage then 1.0
  else if qlt 70 maintenance_percentage then 2.0
  else 0.

Definition _calculate_operations_score (m : metrics) : Q :=
  let score := 0 in
  let commits_per_week := num (get m "commits_per_week" (VNum 0)) in
  let score := score + velocity_penalty commits_per_week in
  let deployments_per_week := num (get m "deployments_per_week" (VNum 0)) in
  let score := score + deployment_frequency_penalty deployments_per_week in
  let maintenance_percentage :=
    num (get m "maintenance_commit_percentage" (VNum 0)) in
  let score := score + maintenance_penalty maintenance_percentage in
  let contributors := num (get m "unique_contributors" (VNum 1)) in
  let score := if Qeq_bool contributors 1 then score + 1.0 else score in
  let gini := num (get m "contribution_gini_coefficient" (VNum 0)) in
  let score := if qlt 0.8 gini then score + 0.5 else score in
  let deployment_regularity := num (get m "deployment_regularity" (VNum 0)) in
  let score := if qlt 14 deployment_regularity then score + 0.5 else score in
  pymin score 4.0.

(** [metrics.get(name, {})] on the top-level dictionary. *)
Definition get_section (raw : gmap string metrics) (k : string) : metrics :=
  match raw !! k with
  | Some s => s
  | None => ∅
  end.

Definition calculate_debt_score (raw : gmap string metrics) : DebtMetrics :=
  let code_score := _calculate_code_quality_score (get_section raw "code_analysis") in
  let arch_score := _calculate_architecture_score (get_section raw "architecture_analysis") in
  let infra_score := _calculate_infrastructure_score (get_section raw "infrastructure_analysis") in
  let ops_score := _calculate_operations_score (get_section raw "operations_analysis") in
  let overall_score :=
    code_score * weight_code_quality +
    arch_score * weight_architecture +
    infra_score * weight_infrastructure +
    ops_score * weight_operations in
  {| code_quality_score := code_score;
     architecture_score := arch_score;
     infrastructure_score := infra_score;
     operations_score := ops_score;
     overall_score := overall_score;
     raw_metrics := raw |}.

Example code_score_empty :
  _calculate_code_quality_score ∅ == 1.5.
Proof. vm_compute. reflexivity. Qed.

(** ** Risk levels *)

Inductive risk_level := Low | Medium | High | Critical.

(** [GitLabDebtScannerAgent._get_risk_level] *)
Definition _get_risk_level (score : Q) : risk_level :=
  if Qle_bool score 1.0 then Low
  else if Qle_bool score 2.0 then Medium
  else if Qle_bool score 3.0 then High
  else Critical.

(** [_get_risk_level_from_score] of src/backend/api_server.py *)
Definition _get_risk_level_from_score (score : Q) : risk_level :=
  if Qle_bool score 1.0 then Low
  else if Qle_bool score 2.0 then Medium
  else if Qle_bool score 3.0 then High
  else Critical.

(** The order Low < Medium < High < Critical. *)
Definition risk_rank (r : risk_level) : nat :=
  match r with Low => 0 | Medium => 1 | High => 2 | Critical => 3 end.

(** ** OperationalAnalyzer._analyze_team_collaboration *)

(** A commit record; only its ["author_email"] entry is read here. *)
Record commit := { author_email : option string }.

(** [contributors.add(commit['author_email'])] for commits that have one. *)
Definition contributors (commits : list commit) : gset string :=
  foldl (fun s c => match author_email c with
                    | Some e => {[e]} ∪ s
                    | None => s
                    end) ∅ commits.

(** [contributor_commits[email] = contributor_commits.get(email, 0) + 1]
    with [email = commit.get('author_email', 'unknown')]. *)
Definition contributor_commits (commits : list commit) : gmap string nat :=
  foldl (fun acc c =>
           let email := default "unknown"%string (author_email c) in
           <[email := (default 0 (acc !! email) + 1)%nat]> acc) ∅ commits.

(** [sum((2 * i + 1) * commit_counts[i] for i in range(n))], the indices
    starting at [i]. *)
Fixpoint weighted_cumsum (i : nat) (counts : list nat) : nat :=
  match counts with
  | [] => 0
  | x :: rest => (2 * i + 1) * x + weighted_cumsum (S i) rest
  end.

(** The Gini computation on the (already sorted) commit counts. *)
Definition gini_of_sorted (commit_counts : list nat) : Q :=
  let n := length commit_counts in
  let cumsum := weighted_cumsum 0 commit_counts in
  inject_Z (Z.of_nat cumsum) / inject_Z (Z.of_nat (n * sum_list commit_counts))
  - inject_Z (Z.of_nat (n + 1)) / inject_Z (Z.of_nat n).

Definition _analyze_team_collaboration (commits : list commit) : metrics :=
  match commits with
  | [] => ∅
  | _ =>
    let cs := contributors commits in
    let m : metrics := <["unique_contributors" := VNum (inject_Z (Z.of_nat (size cs)))]> ∅ in
    if (1 <? size cs)%nat then
      let commit_counts := (map_to_list (contributor_commits commits)).*2 in
      if (1 <? length commit_counts)%nat then
        let sorted := merge_sort (≤)%nat commit_counts in
        <["contribution_gini_coefficient" := VNum (gini_of_sorted sorted)]> m
      else m
    else m
  end.

(** [n] commits by [email]. *)
Definition commits_by (email : string) (n : nat) : list commit :=
  repeat {| author_email := Some email |} n.

(** ** InfrastructureAnalyzer._analyze_cicd *)

(** A pipeline record; the entries read are ["status"] and ["duration"]. *)
Record pipeline := {
  status : option string;
  duration : option value
}.

(** [statistics.mean] *)
Definition mean (xs : list Q) : Q :=
  fold_right Qplus 0 xs / inject_Z (Z.of_nat (length xs)).

Definition nat_q (n : nat) : Q := inject_Z (Z.of_nat n).

(** [ci_files] is the list of paths the four globs found. *)
Definition _analyze_cicd (ci_files : list string) (pipelines : list pipeline) : metrics :=
  let m : metrics := <["has_cicd_config" := VBool (0 <? length ci_files)%nat]> ∅ in
  let m := <["cicd_config_count" := VNum (nat_q (length ci_files))]> m in
  match pipelines with
  | [] => m
  | _ =>
    let successful := length (filter (fun p => status p = Some "success"%string) pipelines) in
    let failed := length (filter (fun p => status p = Some "failed"%string) pipelines) in
    let total := length pipelines in
    let m := <["pipeline_success_rate" := VNum (nat_q successful / nat_q (Nat.max total 1))]> m in
    let m := <["pipeline_failure_rate" := VNum (nat_q failed / nat_q (Nat.max total 1))]> m in
    let m := <["recent_pipeline_count" := VNum (nat_q total)]> m in
    let durations :=
      omap (fun p => match duration p with
                     | Some v => if truthy v then Some (num v) else None
                     | None => None
                     end) pipelines in
    match durations with
    | [] => m
    | _ => <["avg_pipeline_duration" := VNum (mean durations)]> m
    end
  end.

(** ** File-structure scan of CodeAnalyzer and EnhancedCodeAnalyzer *)

(** Python's [sub in s] on strings. *)
Fixpoint contains (sub s : string) : bool :=
  String.prefix sub s ||
  match s with
  | EmptyString => false
  | String _ rest => contains sub rest
  end.

Definition ascii_lower (c : ascii) : ascii :=
  let n := nat_of_ascii c in
  if (65 <=? n)%nat && (n <=? 90)%nat then ascii_of_nat (n + 32) else c.

(** [str.lower()] on ASCII text. *)
Fixpoint lower (s : string) : string :=
  match s with
  | EmptyString => EmptyString
  | String c rest => String (ascii_lower c) (lower rest)
  end.

(** Characters before the first occurrence of [sep]. *)
Fixpoint take_until (sep : ascii) (l : list ascii) : list ascii :=
  match l with
  | [] => []
  | c :: rest => if Ascii.eqb c sep then [] else c :: take_until sep rest
  end.

(** [Path.name]: the text after the last ['/']. *)
Definition path_name (p : string) : list ascii :=
  rev (take_until "/"%char (rev (list_ascii_of_string p))).

(** [Path.suffix]: [i = name.rfind('.')];
    [name[i:] if 0 < i < len(name) - 1 else '']. *)
Definition suffix (p : string) : string :=
  let name := path_name p in
  let ext_rev := take_until "."%char (rev name) in
  if existsb (fun c => Ascii.eqb c "."%char) name then
    let i := (length name - length ext_rev - 1)%nat in
    if (0 <? i)%nat && (i <? length name - 1)%nat
    then string_of_list_ascii ("."%char :: rev ext_rev)
    else EmptyString
  else EmptyString.

Definition mem_string (x : string) (l : list string) : bool :=
  existsb (String.eqb x) l.

(** One entry of [repo_path.rglob('*')]: its [str], whether it is a file,
    and the line count read from it ([None] when opening or reading
    raises). *)
Record fs_entry := {
  entry_path : string;
  entry_is_file : bool;
  entry_lines : option nat
}.

Record census := {
  total_files : nat;
  code_files : nat;
  test_files : nat;
  config_files : nat;
  total_lines : nat
}.

Definition census0 : census := Build_census 0 0 0 0 0.

Section FileScan.
(** The constants of one analyzer variant. *)
Variable code_extensions test_patterns config_extensions ignored : list string.
(** The text the test patterns are matched against. *)
Variable test_key : string -> string.

(** The body of the scanning loop on one entry. *)
Definition scan_step (c : census) (e : fs_entry) : census :=
  let p := entry_path e in
  if entry_is_file e && negb (existsb (fun ig => contains ig p) ignored) then
    let c := {| total_files := S (total_files c); code_files := code_files c;
                test_files := test_files c; config_files := config_files c;
                total_lines := total_lines c |} in
    if mem_string (suffix p) code_extensions then
      let c := {| total_files := total_files c; code_files := S (code_files c);
                  test_files := test_files c; config_files := config_files c;
                  total_lines := total_lines c |} in
      match entry_lines e with
      | None => c (* exception caught and logged *)
      | Some lines =>
        let c := {| total_files := total_files c; code_files := code_files c;
                    test_files := test_files c; config_files := config_files c;
                    total_lines := total_lines c + lines |} in
        if existsb (fun pat => contains pat (test_key p)) test_patterns then
          {| total_files := total_files c; code_files := code_files c;
             test_files := S (test_files c); config_files := config_files c;
             total_lines := total_lines c |}
        else c
      end
    else if mem_string (suffix p) config_extensions then
      {| total_files := total_files c; code_files := code_files c;
         test_files := test_files c; config_files := S (config_files c);
         total_lines := total_lines c |}
    else c
  else c.

Definition scan (entries : list fs_entry) : census :=
  foldl scan_step census0 entries.
End FileScan.

(** Constants of [CodeAnalyzer._analyze_file_structure]. *)
Definition code_extensions_base : list string :=
  [".py"; ".js"; ".ts"; ".java"; ".cpp"; ".c"; ".cs"; ".rb"; ".go"; ".php"].
Definition test_patterns_base : list string :=
  ["test_"; "_test"; ".test."; ".spec."; "/tests/"; "/test/"].
Definition config_extensions_base : list string :=
  [".yml"; ".yaml"; ".json"; ".xml"; ".toml"; ".ini"; ".cfg"].
Definition ignored_base : list string := [".git"; "node_modules"; "__pycache__"].

(** Constants of [EnhancedCodeAnalyzer._analyze_file_structure]. *)
Definition code_extensions_enhanced : list string :=
  [".py"; ".js"; ".ts"; ".java"; ".cs"; ".cpp"; ".c"; ".rb"; ".go"; ".php";
   ".scala"; ".kt"].
Definition test_patterns_enhanced : list string :=
  ["test_"; "_test"; ".test."; ".spec."; "/tests/"; "/test/"; "Test.java";
   "Tests.cs"].
Definition config_extensions_enhanced : list string :=
  [".yml"; ".yaml"; ".json"; ".xml"; ".toml"; ".ini"; ".cfg"; ".properties"].
Definition ignored_enhanced : list string :=
  [".git"; "node_modules"; "__pycache__"; "bin/"; "obj/"].

Definition census_metrics (c : census) (ratio : Q) : metrics :=
  <["total_files" := VNum (nat_q (total_files c))]>
  (<["code_files" := VNum (nat_q (code_files c))]>
  (<["test_files" := VNum (nat_q (test_files c))]>
  (<["config_files" := VNum (nat_q (config_files c))]>
  (<["total_lines_of_code" := VNum (nat_q (total_lines c))]>
  (<["test_to_code_ratio" := VNum ratio]>
  (<["avg_lines_per_file" := VNum (inject_Z (Z.of_nat (total_lines c)) /
                                   inject_Z (Z.max (Z.of_nat (code_files c)) 1))]>
   ∅)))))).

(** [test_files / max(code_files, 1)] *)
Definition ratio_base (c : census) : Q :=
  inject_Z (Z.of_nat (test_files c)) / inject_Z (Z.max (Z.of_nat (code_files c)) 1).

(** [test_files / max(code_files - test_files, 1)] *)
Definition ratio_enhanced (c : census) : Q :=
  inject_Z (Z.of_nat (test_files c)) /
  inject_Z (Z.max (Z.of_nat (code_files c) - Z.of_nat (test_files c)) 1).

Definition _analyze_file_structure (entries : list fs_entry) : metrics :=
  let c := scan code_extensions_base test_patterns_base config_extensions_base
                ignored_base lower entries in
  census_metrics c (ratio_base c).

Definition enhanced_analyze_file_structure (entries : list fs_entry) : metrics :=
  let c := scan code_extensions_enhanced test_patterns_enhanced
                config_extensions_enhanced ignored_enhanced (fun s => s) entries in
  census_metrics c (ratio_enhanced c).

(** ** API helpers of src/backend/api_server.py *)

Record DebtMetricModel := {
  dmm_id : string;
  dmm_name : string;
  dmm_value : Q;
  dmm_threshold : Q;
  dmm_severity : string;
  dmm_description : string
}.

(** [TechDebtAPI._get_severity] *)
Definition _get_severity (v threshold : Q) : string :=
  if Qle_bool threshold v then "low"
  else if Qle_bool (threshold * 0.7) v then "medium"
  else if Qle_bool (threshold * 0.4) v then "high"
  else "critical".

(** [TechDebtAPI._convert_metrics_to_api_format] *)
Definition _convert_metrics_to_api_format (metrics : DebtMetrics) : list DebtMetricModel :=
  [ {| dmm_id := "code_quality"; dmm_name := "Code Quality Score";
       dmm_value := code_quality_score metrics; dmm_threshold := 7.0;
       dmm_severity := _get_severity (code_quality_score metrics) 7.0;
       dmm_description := "Overall code quality based on static analysis" |};
    {| dmm_id := "architecture"; dmm_name := "Architecture Score";
       dmm_value := architecture_score metrics; dmm_threshold := 7.0;
       dmm_severity := _get_severity (architecture_score metrics) 7.0;
       dmm_description := "Architecture quality and design patterns" |};
    {| dmm_id := "infrastructure"; dmm_name := "Infrastructure Score";
       dmm_value := infrastructure_score metrics; dmm_threshold := 7.0;
       dmm_severity := _get_severity (infrastructure_score metrics) 7.0;
       dmm_description := "Infrastructure and deployment configuration" |};
    {| dmm_id := "operations"; dmm_name := "Operations Score";
       dmm_value := operations_score metrics; dmm_threshold := 7.0;
       dmm_severity := _get_severity (operations_score metrics) 7.0;
       dmm_description := "Operational readiness and monitoring" |} ].

(** [TechDebtAPI._generate_recommendations] *)
Definition api_generate_recommendations (metrics : DebtMetrics) : list string :=
  let r : list string := [] in
  let r := if qlt (code_quality_score metrics) 7.0
           then r ++ ["Improve code quality by reducing complexity and code smells"] else r in
  let r := if qlt (architecture_score metrics) 7.0
           then r ++ ["Review architecture patterns and reduce coupling"] else r in
  let r := if qlt (infrastructure_score metrics) 7.0
           then r ++ ["Update infrastructure configuration and documentation"] else r in
  let r := if qlt (operations_score metrics) 7.0
           then r ++ ["Enhance monitoring and operational procedures"] else r in
  match r with
  | [] => ["Maintain current quality standards"]
  | _ => r
  end%string.

Record Recommendation := {
  rec_id : string;
  rec_title : string;
  rec_description : string;
  rec_priority : string;
  rec_category : string;
  rec_effort : string;
  rec_impact : string;
  rec_created_at : string
}.

Section RecommendationsFromMetrics.
(** [str(uuid.uuid4())] and [datetime.now().isoformat()] at the [k]-th
    recommendation built. *)
Variable uuid4 : nat -> string.
Variable now : nat -> string.

(** [_generate_recommendations_from_metrics]; its [all_metrics] argument is
    not read. *)
Definition _generate_recommendations_from_metrics (debt_metrics : DebtMetrics)
    : list Recommendation :=
  let r : list Recommendation := [] in
  let r :=
    if qlt (code_quality_score debt_metrics) 7.0 then
      r ++ [{| rec_id := uuid4 (length r); rec_title := "Improve Code Quality";
               rec_description := "Code quality score is below threshold. Consider refactoring complex functions and reducing code duplication.";
               rec_priority := if qlt (code_quality_score debt_metrics) 5.0 then "high" else "medium";
               rec_category := "code_quality"; rec_effort := "high"; rec_impact := "high";
               rec_created_at := now (length r) |}]
    else r in
  let r :=
    if qlt (architecture_score debt_metrics) 7.0 then
      r ++ [{| rec_id := uuid4 (length r); rec_title := "Review Architecture Patterns";
               rec_description := "Architecture score indicates potential design issues. Review coupling and design patterns.";
               rec_priority := "medium"; rec_category := "architecture";
               rec_effort := "high"; rec_impact := "medium";
               rec_created_at := now (length r) |}]
    else r in
  let r :=
    if qlt (infrastructure_score debt_metrics) 7.0 then
      r ++ [{| rec_id := uuid4 (length r); rec_title := "Update Infrastructure Configuration";
               rec_description := "Infrastructure setup needs improvement. Update dependencies and configuration.";
               rec_priority := "medium"; rec_category := "infrastructure";
               rec_effort := "medium"; rec_impact := "medium";
               rec_created_at := now (length r) |}]
    else r in
  let r :=
    if qlt (operations_score debt_metrics) 7.0 then
      r ++ [{| rec_id := uuid4 (length r); rec_title := "Enhance Operational Procedures";
               rec_description := "Operational readiness can be improved. Add monitoring and documentation.";
               rec_priority := "low"; rec_category := "operations";
               rec_effort := "medium"; rec_impact := "low";
               rec_created_at := now (length r) |}]
    else r in
  r%string.
End RecommendationsFromMetrics.

(** ** The other collectors of OperationalAnalyzer *)

(** A commit record with the two entries the collectors read. *)
Record commit_full := {
  c_author_email : option string;
  c_message : option string
}.

Definition to_commit (c : commit_full) : commit := {| author_email := c_author_email c |}.

(** [commit.get('message', '').lower()] *)
Definition commit_message (c : commit_full) : string :=
  lower (default ""%string (c_message c)).

(** [m.update(x)]: the entries of [x] win. *)
Definition py_update (m x : metrics) : metrics := x ∪ m.

(** [commit_types] of [_analyze_development_velocity], in dict order. *)
Definition commit_types : list string :=
  ["fix"; "feat"; "refactor"; "test"; "docs"; "chore"].

(** The inner loop: the first type with [t in message or f'{t}:' in message]
    (the loop breaks there). *)
Fixpoint first_commit_type (types : list string) (message : string) : option string :=
  match types with
  | [] => None
  | t :: rest =>
      if contains t message || contains (t ++ ":") message then Some t
      else first_commit_type rest message
  end.

Definition count_of (ct : gmap string nat) (t : string) : nat := default 0%nat (ct !! t).

Definition commit_types_init : gmap string nat :=
  list_to_map (map (fun t => (t, 0%nat)) commit_types).

Definition count_commit_type (ct : gmap string nat) (c : commit_full) : gmap string nat :=
  match first_commit_type commit_types (commit_message c) with
  | Some t => <[t := S (count_of ct t)]> ct
  | None => ct
  end.

Definition _analyze_development_velocity (commits : list commit_full) : metrics :=
  match commits with
  | [] => <["commits_per_week" := VNum 0]> (<["avg_commit_size" := VNum 0]> ∅)
  | _ =>
    let m : metrics :=
      <["commits_per_week" := VNum (nat_q (length commits) / (90 / 7))]> ∅ in
    let ct := foldl count_commit_type commit_types_init commits in
    let total_commits := length commits in
    if (0 <? total_commits)%nat then
      <["refactor_commit_ratio" := VNum (nat_q (count_of ct "refactor") / nat_q total_commits)]>
      (<["feature_commit_ratio" := VNum (nat_q (count_of ct "feat") / nat_q total_commits)]>
      (<["fix_commit_ratio" := VNum (nat_q (count_of ct "fix") / nat_q total_commits)]> m))
    else m
  end.

Definition maintenance_keywords : list string :=
  ["fix"; "bug"; "patch"; "hotfix"; "security"; "update"; "upgrade"].
Definition feature_keywords : list string := ["feat"; "feature"; "add"; "implement"; "new"].
Definition refactor_keywords : list string :=
  ["refactor"; "cleanup"; "improve"; "optimize"; "restructure"].

(** Counters (maintenance, feature, refactor) of the categorising loop. *)
Definition categorize_step (acc : nat * nat * nat) (c : commit_full) : nat * nat * nat :=
  let '(mc, fc, rc) := acc in
  let message := commit_message c in
  if existsb (fun k => contains k message) maintenance_keywords then (S mc, fc, rc)
  else if existsb (fun k => contains k message) feature_keywords then (mc, S fc, rc)
  else if existsb (fun k => contains k message) refactor_keywords then (mc, fc, S rc)
  else (mc, fc, rc).

Definition _analyze_maintenance_patterns (commits : list commit_full) : metrics :=
  match commits with
  | [] => ∅
  | _ =>
    let '(mc, fc, rc) := foldl categorize_step (0, 0, 0)%nat commits in
    let total := length commits in
    if (0 <? total)%nat then
      <["refactor_commit_percentage" := VNum (nat_q rc / nat_q total * 100)]>
      (<["feature_commit_percentage" := VNum (nat_q fc / nat_q total * 100)]>
      (<["maintenance_commit_percentage" := VNum (nat_q mc / nat_q total * 100)]> ∅))
    else ∅
  end.

(** [_analyze_release_patterns(pipelines, commits)] with [pipelines = []]:
    its whole body is under [if pipelines:], so it returns [{}]. *)
Definition _analyze_release_patterns_no_pipelines : metrics := ∅.

(** [OperationalAnalyzer.analyze_operations] for a project with no
    pipeline records. *)
Definition analyze_operations_no_pipelines (commits : list commit_full) : metrics :=
  let m : metrics := ∅ in
  let m := py_update m (_analyze_development_velocity commits) in
  let m := py_update m _analyze_release_patterns_no_pipelines in
  let m := py_update m (_analyze_team_collaboration (map to_commit commits)) in
  let m := py_update m (_analyze_maintenance_patterns commits) in
  m.

(** ** EnhancedDebtScoreCalculator of src/enhanced_java_dotnet.py *)

(** The metrics dictionary with its two optional nested dictionaries
    ["java_analysis"] and ["dotnet_analysis"]. *)
Record enhanced_metrics := {
  em_metrics : metrics;
  em_java_analysis : option metrics;
  em_dotnet_analysis : option metrics
}.

(** Truthiness of a dictionary: non-empty. *)
Definition dict_truthy (m : metrics) : bool := negb (bool_decide (m = ∅)).

Definition java_code_penalty (java_analysis : metrics) : Q :=
  let score := 0 in
  let java_test_ratio := num (get java_analysis "java_test_to_main_ratio" (VNum 0)) in
  let score := if qlt java_test_ratio 0.2 then score + 1.0
               else if qlt java_test_ratio 0.5 then score + 0.5 else score in
  let god_class_ratio := num (get java_analysis "java_god_class_ratio" (VNum 0)) in
  let score := if qlt 0.1 god_class_ratio then score + 1.5
               else if qlt 0.05 god_class_ratio then score + 1.0 else score in
  let package_score := num (get java_analysis "java_package_organization_score" (VNum 1.0)) in
  let score := if qlt package_score 0.5 then score + 1.0
               else if qlt package_score 0.7 then score + 0.5 else score in
  let score :=
    if truthy (get java_analysis "checkstyle_available" (VBool false)) then
      let violations := num (get java_analysis "checkstyle_violations" (VNum 0)) in
      if qlt 100 violations then score + 1.0
      else if qlt 50 violations then score + 0.5 else score
    else score in
  score.

Definition dotnet_code_penalty (dotnet_analysis : metrics) : Q :=
  let score := 0 in
  let dotnet_test_ratio := num (get dotnet_analysis "dotnet_test_file_ratio" (VNum 0)) in
  let score := if qlt dotnet_test_ratio 0.2 then score + 1.0
               else if qlt dotnet_test_ratio 0.5 then score + 0.5 else score in
  let god_class_ratio := num (get dotnet_analysis "dotnet_god_class_ratio" (VNum 0)) in
  let score := if qlt 0.1 god_class_ratio then score + 1.5
               else if qlt 0.05 god_class_ratio then score + 1.0 else score in
  let score := if truthy (get dotnet_analysis "dotnet_uses_legacy_framework" (VBool false))
               then score + 1.5 else score in
  let score :=
    if truthy (get dotnet_analysis "dotnet_has_clean_architecture" (VBool false))
    then score - 0.5
    else if truthy (get dotnet_analysis "dotnet_has_layered_architecture" (VBool false))
    then score - 0.3
    else score in
  score.

(** [EnhancedDebtScoreCalculator._calculate_code_quality_score]; the two
    language blocks add their penalties to the running score. *)
Definition enhanced_code_quality_score (em : enhanced_metrics) : Q :=
  let m := em_metrics em in
  let score := 0 in
  let score := score + test_coverage_penalty (num (get m "test_to_code_ratio" (VNum 0))) in
  let java_analysis := default ∅ (em_java_analysis em) in
  let score := if dict_truthy java_analysis then score + java_code_penalty java_analysis
               else score in
  let dotnet_analysis := default ∅ (em_dotnet_analysis em) in
  let score := if dict_truthy dotnet_analysis then score + dotnet_code_penalty dotnet_analysis
               else score in
  pymin (pymax score 0.0) 4.0.

(** [EnhancedDebtScoreCalculator._calculate_architecture_score] *)
Definition enhanced_architecture_score (em : enhanced_metrics) : Q :=
  let m := em_metrics em in
  let score := 0 in
  let score := if negb (truthy (get m "has_readme" (VBool false))) then score + 1.0 else score in
  let java_analysis := default ∅ (em_java_analysis em) in
  let score :=
    if dict_truthy java_analysis then
      let score :=
        if negb (truthy (get java_analysis "java_follows_standard_structure" (VBool false)))
        then score + 1.0 else score in
      let score :=
        if negb (truthy (get java_analysis "java_has_layered_architecture" (VBool false)))
        then score + 1.5 else score in
      let score :=
        if negb (truthy (get java_analysis "uses_spring" (VBool false)))
           && qlt 50 (num (get java_analysis "java_main_classes" (VNum 0)))
        then score + 0.5 else score in
      score
    else score in
  let dotnet_analysis := default ∅ (em_dotnet_analysis em) in
  let score :=
    if dict_truthy dotnet_analysis then
      let score :=
        if negb (truthy (get dotnet_analysis "dotnet_has_layered_architecture" (VBool false)))
        then score + 1.5 else score in
      let score :=
        if negb (truthy (get dotnet_analysis "dotnet_uses_dependency_injection" (VBool false)))
        then score + 1.0 else score in
      let score :=
        if qlt 10 (num (get dotnet_analysis "dotnet_solution_projects" (VNum 0)))
           && negb (truthy (get dotnet_analysis "dotnet_has_clean_architecture" (VBool false)))
        then score + 1.0 else score in
      score
    else score in
  pymin score 4.0.

(** ** CodeAnalyzer._calculate_max_nesting *)

(** [str.split(sep)] for a one-character separator. *)
Fixpoint split_on (sep : ascii) (s : string) : list string :=
  match s with
  | EmptyString => [EmptyString]
  | String c rest =>
      let parts := split_on sep rest in
      if Ascii.eqb c sep then EmptyString :: parts
      else match parts with
           | p :: ps => String c p :: ps
           | [] => [String c EmptyString]
           end
  end.

(** [str.isspace] on one ASCII character: 9 to 13 and 28 to 32. *)
Definition is_space (c : ascii) : bool :=
  let n := nat_of_ascii c in
  ((9 <=? n)%nat && (n <=? 13)%nat) || ((28 <=? n)%nat && (n <=? 32)%nat).

Fixpoint lstrip (s : string) : string :=
  match s with
  | EmptyString => EmptyString
  | String c rest => if is_space c then lstrip rest else s
  end.

Definition string_rev (s : string) : string :=
  string_of_list_ascii (rev (list_ascii_of_string s)).

(** [str.strip()] *)
Definition strip (s : string) : string := string_rev (lstrip (string_rev (lstrip s))).

(** [s.count(sub)] for a non-empty [sub]: non-overlapping occurrences,
    scanned from the left; [fuel] bounds the number of steps. *)
Fixpoint count_aux (fuel : nat) (sub s : string) : nat :=
  match fuel with
  | O => O
  | S f =>
      match s with
      | EmptyString => O
      | String _ rest =>
          if String.prefix sub s
          then S (count_aux f sub (String.substring (String.length sub) (String.length s) s))
          else count_aux f sub rest
      end
  end.

Definition str_count (sub s : string) : nat := count_aux (S (String.length s)) sub s.

(** [if not stripped or stripped.startswith('#') or stripped.startswith('//'): continue] *)
Definition skip_line (line : string) : bool :=
  let stripped := strip line in
  String.eqb stripped EmptyString || String.prefix "#" stripped || String.prefix "//" stripped.

Definition line_opens (line : string) : nat :=
  (str_count "{" line + str_count "if " line + str_count "for " line +
   str_count "while " line)%nat.

Definition line_closes (line : string) : nat := str_count "}" line.

(** One iteration of the loop on [(max_depth, current_depth)]. *)
Definition nesting_step (st : Z * Z) (line : string) : Z * Z :=
  let '(max_depth, current_depth) := st in
  if skip_line line then st
  else
    let opens := Z.of_nat (line_opens line) in
    let closes := Z.of_nat (line_closes line) in
    let current_depth := (current_depth + (opens - closes))%Z in
    let max_depth := Z.max max_depth current_depth in
    let current_depth := Z.max 0 current_depth in
    (max_depth, current_depth).

Definition _calculate_max_nesting (content : string) : Z :=
  fst (foldl nesting_step (0%Z, 0%Z) (split_on "010"%char content)).

(** Openers on the lines the loop does not skip. *)
Fixpoint kept_opens (lines : list string) : Z :=
  match lines with
  | [] => 0%Z
  | l :: ls => ((if skip_line l then 0 else Z.of_nat (line_opens l)) + kept_opens ls)%Z
  end.

(** ** JavaAnalyzer._analyze_architecture_patterns of src/enhanced_java_dotnet.py *)

(** [package_types = defaultdict(int)]: [package_types[k] += 1]. *)
Definition dd_incr (pt : gmap string nat) (k : string) : gmap string nat :=
  <[k := (default 0 (pt !! k) + 1)%nat]> pt.

(** Reading [package_types[k]] on a defaultdict inserts 0 for a missing key. *)
Definition dd_get (pt : gmap string nat) (k : string) : nat * gmap string nat :=
  match pt !! k with
  | Some v => (v, pt)
  | None => (O, <[k := O]> pt)
  end.

Definition any_in (patterns : list string) (s : string) : bool :=
  existsb (fun pattern => contains pattern s) patterns.

(** The [if]/[elif] chain that categorises one package name. *)
Definition categorize_package (pt : gmap string nat) (package : string) : gmap string nat :=
  let p := lower package in
  if any_in ["controller"; "web"; "rest"] p then dd_incr pt "controller"
  else if any_in ["service"; "business"] p then dd_incr pt "service"
  else if any_in ["repository"; "dao"; "data"] p then dd_incr pt "data"
  else if any_in ["model"; "entity"; "domain"] p then dd_incr pt "model"
  else pt.

(** [_calculate_package_organization_score]; its own reads of the four keys
    go through the defaultdict, whose later state nobody observes. *)
Definition _calculate_package_organization_score (package_types : gmap string nat) : Q :=
  if bool_decide (package_types = ∅) then 0.0
  else
    let total_packages := sum_list ((map_to_list package_types).*2) in
    if (total_packages <? 3)%nat then 0.3
    else
      let at_ k := default O (package_types !! k) in
      let has_controller := (0 <? at_ "controller")%nat in
      let has_service := (0 <? at_ "service")%nat in
      let has_data := (0 <? at_ "data")%nat in
      let has_model := (0 <? at_ "model")%nat in
      let layer_count :=
        (Nat.b2n has_controller + Nat.b2n has_service + Nat.b2n has_data +
         Nat.b2n has_model)%nat in
      if (3 <=? layer_count)%nat then 0.9
      else if (layer_count =? 2)%nat then 0.6
      else 0.3.

(** [package_matches] lists, for every Java file read, the group of
    [re.search(r'package\s+([\w\.]+);', content)], or [None] when there is
    no match or the read failed. *)
Definition scan_packages (package_matches : list (option string))
    : gset string * gmap string nat :=
  foldl (fun acc m =>
           match m with
           | Some package => ({[package]} ∪ acc.1, categorize_package acc.2 package)
           | None => acc
           end) (∅, ∅) package_matches.

(** [has_layered_architecture]: a short-circuiting [and] of three
    defaultdict reads. *)
Definition layered_reads (pt : gmap string nat) : bool * gmap string nat :=
  let '(c, pt) := dd_get pt "controller" in
  if (0 <? c)%nat then
    let '(s, pt) := dd_get pt "service" in
    if (0 <? s)%nat then
      let '(d, pt) := dd_get pt "data" in ((0 <? d)%nat, pt)
    else (false, pt)
  else (false, pt).

Definition _analyze_architecture_patterns (package_matches : list (option string)) : metrics :=
  let '(packages, pt) := scan_packages package_matches in
  let '(has_layered_architecture, pt) := layered_reads pt in
  (* the dict literal of metrics.update, evaluated in order *)
  let '(controller, pt) := dd_get pt "controller" in
  let '(service, pt) := dd_get pt "service" in
  let '(data, pt) := dd_get pt "data" in
  let '(model, pt) := dd_get pt "model" in
  let organization := _calculate_package_organization_score pt in
  py_update ∅
    (<["java_total_packages" := VNum (nat_q (size packages))]>
     (<["java_controller_packages" := VNum (nat_q controller)]>
      (<["java_service_packages" := VNum (nat_q service)]>
       (<["java_data_packages" := VNum (nat_q data)]>
        (<["java_model_packages" := VNum (nat_q model)]>
         (<["java_has_layered_architecture" := VBool has_layered_architecture]>
          (<["java_package_organization_score" := VNum organization]> ∅))))))).

(** ** scan_projects, generate_report and _generate_recommendations of
    GitLabDebtScannerAgent *)

(** The strings [_get_risk_level] returns. *)
Definition risk_name (r : risk_level) : string :=
  match r with
  | Low => "Low" | Medium => "Medium" | High => "High" | Critical => "Critical"
  end.

(** A result dictionary of [scan_projects]: with ["debt_metrics"] and
    ["risk_level"] after a successful scan, with ["error"] otherwise; of
    ["project_info"] only the name is read. *)
Inductive scan_result :=
| ScanOk (name : string) (debt_metrics : DebtMetrics) (risk : string)
| ScanError (name : string) (error : string).

(** [scan_projects] on the filtered projects, each paired with the outcome
    of [scan_single_project]: its metrics, or the text of the exception. *)
Definition scan_projects (projects : list (string * (DebtMetrics + string))) : list scan_result :=
  map (fun '(name, outcome) =>
         match outcome with
         | inl debt_metrics =>
             ScanOk name debt_metrics (risk_name (_get_risk_level (overall_score debt_metrics)))
         | inr e => ScanError name e
         end) projects.

(** A successful result: project name, metrics, risk level. *)
Abbreviation ok_entry := (string * DebtMetrics * string)%type.

Definition successful_results (results : list scan_result) : list ok_entry :=
  omap (fun r => match r with
                 | ScanOk n dm rl => Some (n, dm, rl)
                 | ScanError _ _ => None
                 end) results.

Definition is_error (r : scan_result) : bool :=
  match r with ScanError _ _ => true | ScanOk _ _ _ => false end.

(** [str(n)] for a natural number. *)
Fixpoint digits_aux (fuel n : nat) (acc : string) : string :=
  match fuel with
  | O => acc
  | S f =>
      let acc := String (ascii_of_nat (48 + n mod 10)) acc in
      if (n <? 10)%nat then acc else digits_aux f (n / 10) acc
  end.

Definition str_int (n : nat) : string := digits_aux (S n) n EmptyString.

Definition msg_no_cicd (k total : nat) : string :=
  "Critical: " ++ str_int k ++ "/" ++ str_int total ++
  " projects lack CI/CD configuration. Implement GitLab CI/CD pipelines.".
Definition msg_no_tests (k total : nat) : string :=
  "High Priority: " ++ str_int k ++ "/" ++ str_int total ++
  " projects have insufficient test coverage (<10%). Establish testing standards.".
Definition msg_no_docs (k total : nat) : string :=
  "Medium Priority: " ++ str_int k ++ "/" ++ str_int total ++
  " projects lack README documentation. Create documentation templates.".
Definition msg_no_containers (k total : nat) : string :=
  "Medium Priority: " ++ str_int k ++ "/" ++ str_int total ++
  " projects are not containerized. Consider Docker adoption.".
Definition msg_critical (k : nat) : string :=
  "Immediate Action: " ++ str_int k ++
  " projects are at critical risk and need urgent remediation.".

(** [r['debt_metrics']['raw_metrics'][section]] for the three sections read;
    [None] is the [KeyError] of a missing one. *)
Definition rec_sections (r : ok_entry) : option (metrics * metrics * metrics) :=
  let raw := raw_metrics r.1.2 in
  infra ← raw !! "infrastructure_analysis";
  code ← raw !! "code_analysis";
  arch ← raw !! "architecture_analysis";
  Some (infra, code, arch).

Definition count_if {A} (p : A -> bool) (l : list A) : nat := length (List.filter p l).

(** The four ratio checks of [_generate_recommendations], in order. *)
Definition threshold_recommendations (total_projects no_cicd no_tests no_docs no_containers : nat)
    : list string :=
  let frac k := nat_q k / nat_q total_projects in
  let recommendations : list string := [] in
  let recommendations := if qlt 0.5 (frac no_cicd)
    then recommendations ++ [msg_no_cicd no_cicd total_projects] else recommendations in
  let recommendations := if qlt 0.7 (frac no_tests)
    then recommendations ++ [msg_no_tests no_tests total_projects] else recommendations in
  let recommendations := if qlt 0.6 (frac no_docs)
    then recommendations ++ [msg_no_docs no_docs total_projects] else recommendations in
  let recommendations := if qlt 0.8 (frac no_containers)
    then recommendations ++ [msg_no_containers no_containers total_projects]
    else recommendations in
  recommendations.

Definition _generate_recommendations (results : list ok_entry) : option (list string) :=
  match results with
  | [] => Some []
  | _ =>
    sections ← mapM rec_sections results;
    let total_projects := length results in
    let no_cicd := count_if (fun '(infra, _, _) =>
                     negb (truthy (get infra "has_cicd_config" (VBool false)))) sections in
    let no_tests := count_if (fun '(_, code, _) =>
                     qlt (num (get code "test_to_code_ratio" (VNum 0))) 0.1) sections in
    let no_docs := count_if (fun '(_, _, arch) =>
                     negb (truthy (get arch "has_readme" (VBool false)))) sections in
    let no_containers := count_if (fun '(infra, _, _) =>
                     negb (truthy (get infra "is_containerized" (VBool false)))) sections in
    let recommendations :=
      threshold_recommendations total_projects no_cicd no_tests no_docs no_containers in
    let critical_projects := List.filter (fun r => String.eqb r.2 "Critical") results in
    let recommendations :=
      match critical_projects with
      | [] => recommendations
      | _ => recommendations ++ [msg_critical (length critical_projects)]
      end in
    Some recommendations
  end.

(** [(name, overall_score, risk_level)] rows of [top_debt_projects]. *)
Abbreviation debt_row := (string * Q * string)%type.

(** [list.sort(key=lambda x: x[1], reverse=True)]: a stable sort on
    decreasing scores; a row goes after every row whose score is not
    smaller. *)
Fixpoint insert_desc (x : debt_row) (l : list debt_row) : list debt_row :=
  match l with
  | [] => [x]
  | y :: ys => if qlt y.1.2 x.1.2 then x :: y :: ys else y :: insert_desc x ys
  end.

Definition sort_desc (l : list debt_row) : list debt_row :=
  foldl (fun acc x => insert_desc x acc) [] l.

Record report := {
  total_projects : nat;
  successful_scans : nat;
  failed_scans : nat;
  risk_distribution : gmap string nat;
  top_debt_projects : list debt_row;
  report_recommendations : list string;
  detailed_results : list scan_result
}.

Definition risk_counts_init : gmap string nat :=
  <["Low" := O]> (<["Medium" := O]> (<["High" := O]> (<["Critical" := O]> ∅))).

(** [if risk_level in risk_counts: risk_counts[risk_level] += 1] *)
Definition count_risk (rc : gmap string nat) (r : ok_entry) : gmap string nat :=
  match rc !! r.2 with
  | Some n => <[r.2 := S n]> rc
  | None => rc
  end.

(** [generate_report] without [output_path]; [None] when
    [_generate_recommendations] raises. The JSON text is the record. *)
Definition generate_report (results : list scan_result) : option report :=
  let successful := successful_results results in
  let risk_counts := foldl count_risk risk_counts_init successful in
  let debt_projects := map (fun '(n, dm, rl) => (n, overall_score dm, rl)) successful in
  let top := take 10 (sort_desc debt_projects) in
  recs ← _generate_recommendations successful;
  Some {| total_projects := length results;
          successful_scans := length successful;
          failed_scans := count_if is_error results;
          risk_distribution := risk_counts;
          top_debt_projects := top;
          report_recommendations := recs;
          detailed_results := results |}.

(** The three sections [_generate_recommendations] indexes. *)
Definition has_sections (dm : DebtMetrics) : Prop :=
  is_Some (raw_metrics dm !! "infrastructure_analysis"%string) /\
  is_Some (raw_metrics dm !! "code_analysis"%string) /\
  is_Some (raw_metrics dm !! "architecture_analysis"%string).

(** ** CodeAnalyzer.analyze_code_quality and its language analysers *)

(** The table of [_detect_languages]. *)
Definition language_extensions : list (string * list string) :=
  [("Python", [".py"]); ("JavaScript", [".js"; ".jsx"]); ("TypeScript", [".ts"; ".tsx"]);
   ("Java", [".java"]); ("C++", [".cpp"; ".cc"; ".cxx"]); ("C", [".c"]);
   ("C#", [".cs"]); ("Ruby", [".rb"]); ("Go", [".go"]); ("PHP", [".php"]);
   ("Rust", [".rs"]); ("Kotlin", [".kt"]); ("Swift", [".swift"])]%string.

(** [_detect_languages]: the languages some file's suffix belongs to
    (the source returns them as [list(set)], in no fixed order). *)
Definition _detect_languages (entries : list fs_entry) : list string :=
  map fst (List.filter (fun '(_, extensions) =>
    existsb (fun e => entry_is_file e && mem_string (suffix (entry_path e)) extensions) entries)
    language_extensions).

(** What the external tools and globs report to the language analysers. *)
Record code_tools := {
  (** [Some (returncode, total_issues)] from flake8 and the parsed output,
      [None] on [TimeoutExpired] or [FileNotFoundError] *)
  flake8_run : option (Z * nat);
  requirements_files : nat;
  (** the sizes of dependencies and devDependencies of a package.json that
      exists and parses, and the size of its scripts ([None] when [len]
      raises on it, after the two dependency counts are written); [None]
      when the file is absent, unreadable or [len] raises on a dependency
      field *)
  package_json : option (nat * nat * option nat);
  js_config_exists : string -> bool;
  has_pom_xml : bool;
  has_build_gradle : bool
}.

Definition _analyze_python_code (t : code_tools) : metrics :=
  let m : metrics := ∅ in
  let m :=
    match flake8_run t with
    | Some (returncode, total_issues) =>
        if Z.eqb returncode 0 then <["python_flake8_issues" := VNum (nat_q total_issues)]> m else m
    | None => <["python_flake8_issues" := VNum (-1)]> m
    end in
  <["python_dependency_files" := VNum (nat_q (requirements_files t))]> m.

Definition js_config_files : list string := ["eslint"; "prettier"; "jest"; "webpack"; "babel"].

Definition _analyze_javascript_code (t : code_tools) : metrics :=
  let m : metrics := ∅ in
  let m :=
    match package_json t with
    | Some (deps, dev_deps, scripts) =>
        let m := <["js_dev_dependencies" := VNum (nat_q dev_deps)]>
                 (<["js_dependencies" := VNum (nat_q deps)]> m) in
        match scripts with
        | Some n => <["js_has_scripts" := VBool (0 <? n)%nat]> m
        | None => m
        end
    | None => m
    end in
  foldl (fun (m : metrics) (config : string) =>
           <[("js_has_" ++ config ++ "_config")%string := VBool (js_config_exists t config)]> m)
        m js_config_files.

Definition _analyze_java_code (t : code_tools) : metrics :=
  <["java_has_build_system" := VBool (has_pom_xml t || has_build_gradle t)]>
  (<["java_has_gradle" := VBool (has_build_gradle t)]>
   (<["java_has_maven" := VBool (has_pom_xml t)]> ∅)).

(** One entry of [repo_path.rglob('*')] for [_analyze_complexity]: the
    size from [stat] and the text read ([None] where the call raises). *)
Record cx_entry := {
  cx_path : string;
  cx_is_file : bool;
  cx_size : option N;
  cx_content : option string
}.

Definition complexity_suffixes : list string := [".py"; ".js"; ".java"; ".cpp"; ".c"].

(** The loop body on [(max_file_size, large_files_count, deep_nesting_count)]. *)
Definition complexity_step (st : N * nat * nat) (e : cx_entry) : N * nat * nat :=
  let '(max_file_size, large_files_count, deep_nesting_count) := st in
  if cx_is_file e && mem_string (suffix (cx_path e)) complexity_suffixes then
    match cx_size e with
    | None => st
    | Some size =>
        let max_file_size := N.max max_file_size size in
        let large_files_count :=
          if (10000 <? size)%N then S large_files_count else large_files_count in
        match cx_content e with
        | None => (max_file_size, large_files_count, deep_nesting_count)
        | Some content =>
            let max_nesting := _calculate_max_nesting content in
            (max_file_size, large_files_count,
             if (5 <? max_nesting)%Z then S deep_nesting_count else deep_nesting_count)
        end
    end
  else st.

Definition _analyze_complexity (files : list cx_entry) : metrics :=
  let '(max_file_size, large_files_count, deep_nesting_count) :=
    foldl complexity_step (0%N, O, O) files in
  py_update ∅
    (<["max_file_size_bytes" := VNum (inject_Z (Z.of_N max_file_size))]>
     (<["large_files_count" := VNum (nat_q large_files_count)]>
      (<["deep_nesting_files" := VNum (nat_q deep_nesting_count)]> ∅))).

Definition analyze_code_quality (entries : list fs_entry) (files : list cx_entry)
    (t : code_tools) : metrics :=
  let m : metrics := ∅ in
  let m := py_update m (_analyze_file_structure entries) in
  let languages := _detect_languages entries in
  let m := if mem_string "Python" languages then py_update m (_analyze_python_code t) else m in
  let m := if mem_string "JavaScript" languages || mem_string "TypeScript" languages
           then py_update m (_analyze_javascript_code t) else m in
  let m := if mem_string "Java" languages then py_update m (_analyze_java_code t) else m in
  py_update m (_analyze_complexity files).

(** ** TechDebtAPI._detect_primary_language of src/backend/api_server.py *)

Definition primary_extensions : list (string * string) :=
  [(".java", "Java"); (".cs", "C#"); (".py", "Python"); (".js", "JavaScript");
   (".ts", "TypeScript"); (".go", "Go"); (".rs", "Rust"); (".cpp", "C++"); (".c", "C")]%string.

(** [extensions[suffix]] when [suffix in extensions]. *)
Fixpoint ext_lookup (table : list (string * string)) (sfx : string) : option string :=
  match table with
  | [] => None
  | (k, v) :: rest => if String.eqb k sfx then Some v else ext_lookup rest sfx
  end.

(** [file_counts], a dict kept in insertion order:
    [file_counts[lang] = file_counts.get(lang, 0) + 1]. *)
Fixpoint bump (lang : string) (fc : list (string * nat)) : list (string * nat) :=
  match fc with
  | [] => [(lang, 1%nat)]
  | (l, n) :: rest => if String.eqb l lang then (l, S n) :: rest else (l, n) :: bump lang rest
  end.

Definition count_file (fc : list (string * nat)) (e : fs_entry) : list (string * nat) :=
  if entry_is_file e then
    match ext_lookup primary_extensions (suffix (entry_path e)) with
    | Some lang => bump lang fc
    | None => fc
    end
  else fc.

Definition file_counts (entries : list fs_entry) : list (string * nat) :=
  foldl count_file [] entries.

(** [max(file_counts, key=file_counts.get)]: the first key of largest
    count; a later key replaces the current one only when strictly larger. *)
Definition py_max_key (fc : list (string * nat)) : option string :=
  match fc with
  | [] => None
  | first :: rest =>
      Some (fold_left (fun best x => if (best.2 <? x.2)%nat then x else best) rest first).1
  end.

Definition _detect_primary_language (entries : list fs_entry) : string :=
  match py_max_key (file_counts entries) with
  | Some lang => lang
  | None => "Unknown"
  end.

(** Number of files whose suffix maps to [lang]. *)
Definition lang_count (entries : list fs_entry) (lang : string) : nat :=
  count_if (fun e => entry_is_file e &&
              match ext_lookup primary_extensions (suffix (entry_path e)) with
              | Some l => String.eqb l lang
              | None => false
              end) entries.

(** ** ArchitectureAnalyzer._analyze_documentation *)

(** The repository as the analyser sees it: which documentation files
    exist, what [read_text] returns for them ([None] when it raises), and the
    contents of the files matched by the [**/*.py], [**/*.js] and
    [**/*.java] globs, in glob order. *)
Record doc_repo := {
  doc_exists : string -> bool;
  doc_read : string -> option string;
  code_file_contents : list (option string)
}.

Definition doc_file_names : list string :=
  ["README.md"; "README.rst"; "README.txt"; "CHANGELOG.md"; "CONTRIBUTING.md"]%string.

Definition readme_metrics (m : metrics) (content : string) : metrics :=
  <["readme_has_sections" :=
      VBool (3 <? length (List.filter (String.prefix "#")
                                      (split_on "010"%char content)))%nat]>
  (<["readme_length" := VNum (nat_q (String.length content))]> m).

Definition doc_step (r : doc_repo) (st : metrics * list string) (doc_file : string)
  : metrics * list string :=
  let '(m, found_docs) := st in
  if doc_exists r doc_file then
    let found_docs := found_docs ++ [doc_file] in
    if String.prefix "README" doc_file then
      match doc_read r doc_file with
      | Some content => (readme_metrics m content, found_docs)
      | None => (m, found_docs)
      end
    else (m, found_docs)
  else (m, found_docs).

Definition triple_quote : string :=
  String "034"%char (String "034"%char (String "034"%char EmptyString)).

(** A file counts as documented when it contains a triple double quote or
    a C comment opener, or more than five [#] characters. *)
Definition is_documented (content : string) : bool :=
  contains triple_quote content || contains "/*" content ||
  (5 <? str_count "#" content)%nat.

Definition _analyze_documentation (r : doc_repo) : metrics :=
  let '(m, found_docs) := foldl (doc_step r) (∅, []) doc_file_names in
  let m := <["documentation_files" := VNum (nat_q (length found_docs))]> m in
  let m := <["has_readme" := VBool (existsb (contains "README") found_docs)]> m in
  match code_file_contents r with
  | [] => m
  | code_files =>
      let sample := firstn 50 code_files in
      let documented_files :=
        count_if (fun c => match c with Some c => is_documented c | None => false end)
                 sample in
      <["code_documentation_ratio" :=
          VNum (nat_q documented_files / nat_q (length sample))]> m
  end.

(** The content of a documentation file when it exists and can be read. *)
Definition read_if (r : doc_repo) (f : string) : option string :=
  if doc_exists r f then doc_read r f else None.

(** The last of README.md, README.rst and README.txt, in that order, that
    exists and can be read. *)
Definition last_readme (r : doc_repo) : option string :=
  match read_if r "README.txt" with
  | Some c => Some c
  | None =>
      match read_if r "README.rst" with
      | Some c => Some c
      | None => read_if r "README.md"
      end
  end.

(** [ArchitectureAnalyzer.analyze_architecture]: the maps returned by
    [_analyze_directory_structure], [_analyze_configuration] and
    [_analyze_apis] merged in that order, then the documentation metrics. *)
Definition analyze_architecture (structure configuration apis : metrics) (r : doc_repo)
  : metrics :=
  let m := py_update ∅ structure in
  let m := py_update m configuration in
  let m := py_update m apis in
  py_update m (_analyze_documentation r).

(** The documentation part of [_calculate_architecture_score], read off the
    repository: 1.0 without any README file, 0.5 when the README that
    [_analyze_documentation] measures is missing or shorter than 500
    characters, and 0.5 more with fewer than two documentation files. *)
Definition documentation_floor (r : doc_repo) : Q :=
  (if negb (doc_exists r "README.md" || doc_exists r "README.rst" ||
            doc_exists r "README.txt") then 1.0
   else if qlt (match last_readme r with
                | Some c => nat_q (String.length c)
                | None => 0
                end) 500 then 0.5
   else 0) +
  (if qlt (nat_q (length (List.filter (doc_exists r) doc_file_names))) 2 then 0.5 else 0).

(** * Arithmetic facts about the Python operators *)

Lemma qlt_spec (a b : Q) : qlt a b = true <-> a < b.
Proof.
  unfold qlt. rewrite Qlt_alt. destruct (a ?= b); split; congruence.
Qed.

Lemma qlt_false (a b : Q) : qlt a b = false <-> b <= a.
Proof.
  split.
  - intros H. apply Qnot_lt_le. intros Hlt. apply qlt_spec in Hlt. congruence.
  - intros H. destruct (qlt a b) eqn:E; [|reflexivity].
    apply qlt_spec in E. lra.
Qed.

Lemma pymin_le_r (a b : Q) : pymin a b <= b.
Proof.
  unfold pymin. destruct (qlt b a) eqn:E; [lra|]. apply qlt_false in E. exact E.
Qed.

Lemma pymin_nonneg (a b : Q) : 0 <= a -> 0 <= b -> 0 <= pymin a b.
Proof. unfold pymin. destruct (qlt b a); auto. Qed.

Lemma pymax_ge_r (a b : Q) : b <= pymax a b.
Proof.
  unfold pymax. destruct (qlt a b) eqn:E; [lra|]. apply qlt_false in E. exact E.
Qed.

Lemma qadd_nonneg (a b : Q) : 0 <= a -> 0 <= b -> 0 <= a + b.
Proof. intros. lra. Qed.

(** Non-negativity of a chain of [score += c] steps. *)
Ltac score_nonneg :=
  repeat match goal with
  | |- 0 <= pymin _ _ => apply pymin_nonneg; [| lra]
  | |- 0 <= _ + _ => apply qadd_nonneg
  | |- 0 <= (if ?c then _ else _) => destruct c
  | |- 0 <= 0 => lra
  end.

(** Case split on every comparison of a penalty block. *)
Ltac split_qlt :=
  repeat match goal with
  | |- context [qlt ?a ?b] => destruct (qlt a b)
  end.

Create HintDb penalties.

Lemma test_coverage_penalty_nonneg r : 0 <= test_coverage_penalty r.
Proof. unfold test_coverage_penalty. split_qlt; lra. Qed.

Lemma file_size_penalty_nonneg r : 0 <= file_size_penalty r.
Proof. unfold file_size_penalty. split_qlt; lra. Qed.

Lemma large_files_penalty_nonneg r : 0 <= large_files_penalty r.
Proof. unfold large_files_penalty. split_qlt; lra. Qed.

Lemma deep_nesting_penalty_nonneg r : 0 <= deep_nesting_penalty r.
Proof. unfold deep_nesting_penalty. split_qlt; lra. Qed.

Lemma flake8_penalty_nonneg m t : 0 <= flake8_penalty m t.
Proof.
  unfold flake8_penalty. destruct (m !! _); [|lra]. split_qlt; lra.
Qed.

Lemma documentation_penalty_nonneg r : 0 <= documentation_penalty r.
Proof. unfold documentation_penalty. split_qlt; lra. Qed.

Lemma directory_depth_penalty_nonneg r : 0 <= directory_depth_penalty r.
Proof. unfold directory_depth_penalty. split_qlt; lra. Qed.

Lemma cicd_penalty_nonneg m : 0 <= cicd_penalty m.
Proof. unfold cicd_penalty. destruct negb; [lra|]. split_qlt; lra. Qed.

Lemma secrets_penalty_nonneg p : 0 <= secrets_penalty p.
Proof.
  unfold secrets_penalty. destruct (qlt 0 p) eqn:E; [|lra].
  apply qlt_spec in E. apply pymin_nonneg; lra.
Qed.

Lemma velocity_penalty_nonneg r : 0 <= velocity_penalty r.
Proof. unfold velocity_penalty. split_qlt; lra. Qed.

Lemma deployment_frequency_penalty_nonneg r : 0 <= deployment_frequency_penalty r.
Proof. unfold deployment_frequency_penalty. split_qlt; lra. Qed.

Lemma maintenance_penalty_nonneg r : 0 <= maintenance_penalty r.
Proof. unfold maintenance_penalty. split_qlt; lra. Qed.

#[export] Hint Resolve test_coverage_penalty_nonneg file_size_penalty_nonneg
  large_files_penalty_nonneg deep_nesting_penalty_nonneg flake8_penalty_nonneg
  documentation_penalty_nonneg directory_depth_penalty_nonneg cicd_penalty_nonneg
  secrets_penalty_nonneg velocity_penalty_nonneg
  deployment_frequency_penalty_nonneg maintenance_penalty_nonneg : penalties.

Lemma code_quality_score_range m :
  0 <= _calculate_code_quality_score m <= 4.
Proof.
  unfold _calculate_code_quality_score. cbv zeta. split; [|eapply Qle_trans; [apply pymin_le_r|lra]].
  score_nonneg; auto with penalties.
Qed.

Lemma architecture_score_range m :
  0 <= _calculate_architecture_score m <= 4.
Proof.
  unfold _calculate_architecture_score. cbv zeta. split; [|eapply Qle_trans; [apply pymin_le_r|lra]].
  score_nonneg; auto with penalties; lra.
Qed.

Lemma infrastructure_score_range m :
  0 <= _calculate_infrastructure_score m <= 4.
Proof.
  unfold _calculate_infrastructure_score. cbv zeta. split; [|eapply Qle_trans; [apply pymin_le_r|lra]].
  score_nonneg; auto with penalties; lra.
Qed.

Lemma operations_score_range m :
  0 <= _calculate_operations_score m <= 4.
Proof.
  unfold _calculate_operations_score. cbv zeta. split; [|eapply Qle_trans; [apply pymin_le_r|lra]].
  score_nonneg; auto with penalties; lra.
Qed.

Lemma risk_level_tiers (s : Q) :
  (s <= 1.0 -> _get_risk_level s = Low) /\
  (1.0 < s <= 2.0 -> _get_risk_level s = Medium) /\
  (2.0 < s <= 3.0 -> _get_risk_level s = High) /\
  (3.0 < s -> _get_risk_level s = Critical).
Proof.
  unfold _get_risk_level.
  destruct (Qle_bool s 1.0) eqn:E1; [apply Qle_bool_iff in E1
    | assert (~ s <= 1.0) by (rewrite <- Qle_bool_iff; congruence)];
  (destruct (Qle_bool s 2.0) eqn:E2; [apply Qle_bool_iff in E2
    | assert (~ s <= 2.0) by (rewrite <- Qle_bool_iff; congruence)]);
  (destruct (Qle_bool s 3.0) eqn:E3; [apply Qle_bool_iff in E3
    | assert (~ s <= 3.0) by (rewrite <- Qle_bool_iff; congruence)]);
  repeat split; intros; try reflexivity; try lra.
Qed.

Lemma risk_level_monotone (s1 s2 : Q) :
  s1 <= s2 -> (risk_rank (_get_risk_level s1) <= risk_rank (_get_risk_level s2))%nat.
Proof.
  intros Hle.
  destruct (risk_level_tiers s1) as (A1 & B1 & C1 & D1).
  destruct (risk_level_tiers s2) as (A2 & B2 & C2 & D2).
  destruct (Qlt_le_dec 1.0 s1); destruct (Qlt_le_dec 2.0 s1);
  destruct (Qlt_le_dec 3.0 s1); destruct (Qlt_le_dec 1.0 s2);
  destruct (Qlt_le_dec 2.0 s2); destruct (Qlt_le_dec 3.0 s2);
  first [ rewrite A1 by lra | rewrite B1 by lra | rewrite C1 by lra | rewrite D1 by lra
        | lra ];
  first [ rewrite A2 by lra | rewrite B2 by lra | rewrite C2 by lra | rewrite D2 by lra
        | lra ];
  simpl; lia.
Qed.

Lemma risk_level_from_score_same (s : Q) :
  _get_risk_level_from_score s = _get_risk_level s.
Proof. reflexivity. Qed.


Lemma pymin_ge (a b c : Q) : a <= b -> a <= c -> a <= pymin b c.
Proof. unfold pymin. destruct (qlt c b); auto. Qed.

Lemma get_insert_ne (m : metrics) (k k' : string) (v d : value) :
  k <> k' -> get (<[k := v]> m) k' d = get m k' d.
Proof. intros Hne. unfold get. rewrite lookup_insert_ne by exact Hne. reflexivity. Qed.

Lemma get_some (m : metrics) (k : string) (v d : value) :
  m !! k = Some v -> get m k d = v.
Proof. unfold get. intros ->. reflexivity. Qed.

(** Non-negativity facts for every penalty term of the goal. *)
Ltac map_lookups :=
  repeat first [ rewrite lookup_insert_eq | rewrite lookup_insert_ne by discriminate ].

Ltac penalty_facts :=
  repeat match goal with
  | |- context [large_files_penalty ?r] =>
      lazymatch goal with _ : 0 <= large_files_penalty r |- _ => fail
      | _ => pose proof (large_files_penalty_nonneg r) end
  | |- context [deep_nesting_penalty ?r] =>
      lazymatch goal with _ : 0 <= deep_nesting_penalty r |- _ => fail
      | _ => pose proof (deep_nesting_penalty_nonneg r) end
  | |- context [flake8_penalty ?m ?t] =>
      lazymatch goal with _ : 0 <= flake8_penalty m t |- _ => fail
      | _ => pose proof (flake8_penalty_nonneg m t) end
  | |- context [documentation_penalty ?r] =>
      lazymatch goal with _ : 0 <= documentation_penalty r |- _ => fail
      | _ => pose proof (documentation_penalty_nonneg r) end
  end.

(** The scanning loop keeps [test_files <= code_files], and no line is
    counted before a code file is. *)
Definition census_inv (c : census) : Prop :=
  (test_files c <= code_files c)%nat /\
  (code_files c = 0%nat -> total_lines c = 0%nat).

Lemma scan_step_inv ce tp cf ig tk (c : census) (e : fs_entry) :
  census_inv c -> census_inv (scan_step ce tp cf ig tk c e).
Proof.
  unfold census_inv, scan_step. intros [H1 H2].
  repeat (case_match; simpl in *); split; try lia; intros; try lia.
Qed.

Lemma scan_inv ce tp cf ig tk (entries : list fs_entry) :
  census_inv (scan ce tp cf ig tk entries).
Proof.
  unfold scan.
  assert (Hgen : forall c, census_inv c ->
    census_inv (foldl (scan_step ce tp cf ig tk) c entries)).
  { induction entries as [|e rest IH]; intros c Hc; simpl; [exact Hc|].
    apply IH. apply scan_step_inv. exact Hc. }
  apply Hgen. unfold census_inv; simpl; lia.
Qed.

(** [weighted_cumsum] on [n] equal counts. *)
Lemma weighted_cumsum_repeat (i c n : nat) :
  weighted_cumsum i (repeat c n) = (c * (2 * i * n + n * n))%nat.
Proof.
  revert i. induction n as [|n IH]; intros i; simpl; [lia|].
  rewrite IH. nia.
Qed.

Lemma sum_list_repeat (c n : nat) : sum_list (repeat c n) = (n * c)%nat.
Proof. induction n as [|n IH]; simpl; lia. Qed.

(** On [n >= 1] equal positive counts the computation yields [-1/n]. *)
Lemma gini_of_sorted_repeat (c n : nat) :
  (1 <= c)%nat -> (1 <= n)%nat ->
  gini_of_sorted (repeat c n) == - (1 / inject_Z (Z.of_nat n)).
Proof.
  intros Hc Hn. unfold gini_of_sorted.
  rewrite repeat_length, weighted_cumsum_repeat, sum_list_repeat.
  replace (c * (2 * 0 * n + n * n))%nat with (n * (n * c))%nat by lia.
  rewrite !Nat2Z.inj_mul, Nat2Z.inj_add.
  rewrite !inject_Z_mult, inject_Z_plus.
  assert (Hnz : ~ inject_Z (Z.of_nat n) == 0).
  { rewrite inject_Z_injective with (a := Z.of_nat n) (b := 0%Z) by reflexivity. lia. }
  assert (Hcz : ~ inject_Z (Z.of_nat c) == 0).
  { rewrite inject_Z_injective with (a := Z.of_nat c) (b := 0%Z) by reflexivity. lia. }
  simpl (inject_Z (Z.of_nat 1)).
  field. split; assumption.
Qed.

(** * Claims *)

(** C1: every category score and the overall score returned by
    [calculate_debt_score] lie in [0.0, 4.0], for every metrics input. *)
Theorem debt_scores_in_range (raw : gmap string metrics) :
  let d := calculate_debt_score raw in
  0 <= code_quality_score d <= 4.0 /\
  0 <= architecture_score d <= 4.0 /\
  0 <= infrastructure_score d <= 4.0 /\
  0 <= operations_score d <= 4.0 /\
  0 <= overall_score d <= 4.0.
Proof.
  cbv zeta. unfold calculate_debt_score; simpl.
  pose proof (code_quality_score_range (get_section raw "code_analysis")).
  pose proof (architecture_score_range (get_section raw "architecture_analysis")).
  pose proof (infrastructure_score_range (get_section raw "infrastructure_analysis")).
  pose proof (operations_score_range (get_section raw "operations_analysis")).
  unfold weight_code_quality, weight_architecture, weight_infrastructure,
    weight_operations.
  repeat split; lra.
Qed.

(** C2: the overall score is the weighted sum of the four category scores
    with weights 0.25, 0.30, 0.25, 0.20, and these weights sum to 1.0. *)
Theorem overall_score_weighted_sum (raw : gmap string metrics) :
  let d := calculate_debt_score raw in
  overall_score d ==
    code_quality_score d * 0.25 + architecture_score d * 0.30 +
    infrastructure_score d * 0.25 + operations_score d * 0.20 /\
  weight_code_quality + weight_architecture + weight_infrastructure +
    weight_operations == 1.0.
Proof.
  cbv zeta. unfold calculate_debt_score; simpl.
  unfold weight_code_quality, weight_architecture, weight_infrastructure,
    weight_operations.
  split; [reflexivity | vm_compute; reflexivity].
Qed.

(** C3: both risk-level functions are the same step function of the score:
    [s <= 1.0] is Low, [(1.0, 2.0]] Medium, [(2.0, 3.0]] High, [> 3.0]
    Critical (boundaries go to the lower tier), and the level is monotone
    in the score for the order Low < Medium < High < Critical. *)
Theorem risk_level_step_function :
  (forall s : Q, _get_risk_level_from_score s = _get_risk_level s) /\
  (forall s : Q,
    (s <= 1.0 -> _get_risk_level s = Low) /\
    (1.0 < s <= 2.0 -> _get_risk_level s = Medium) /\
    (2.0 < s <= 3.0 -> _get_risk_level s = High) /\
    (3.0 < s -> _get_risk_level s = Critical)) /\
  (forall s1 s2 : Q, s1 <= s2 ->
    (risk_rank (_get_risk_level s1) <= risk_rank (_get_risk_level s2))%nat).
Proof.
  split; [exact risk_level_from_score_same|].
  split; [exact risk_level_tiers | exact risk_level_monotone].
Qed.

Lemma risk_level_step_function_witness :
  _get_risk_level 1.0 = Low /\ _get_risk_level_from_score 2.0 = Medium /\
  _get_risk_level 3.0 = High /\ _get_risk_level 3.5 = Critical /\
  (risk_rank (_get_risk_level 1.5) <= risk_rank (_get_risk_level 2.5))%nat.
Proof.
  destruct risk_level_step_function as (Hsame & Htiers & Hmono).
  split; [apply (Htiers 1.0); lra|].
  split; [rewrite Hsame; apply (Htiers 2.0); lra|].
  split; [apply (Htiers 3.0); lra|].
  split; [apply (Htiers 3.5); lra|].
  apply (Hmono 1.5 2.5); lra.
Defined.

(** C4: the maintenance-burden penalty of [_calculate_operations_score] is
    1.5 above 60%, 1.0 on (40%, 60%] and 0 otherwise; the +2.0 branch for
    values above 70% is unreachable. *)
Theorem maintenance_penalty_dead_branch (p : Q) :
  maintenance_penalty p =
    (if qlt 60 p then 1.5 else if qlt 40 p then 1.0 else 0) /\
  ~ (maintenance_penalty p == 2.0).
Proof.
  unfold maintenance_penalty.
  destruct (qlt 60 p) eqn:E60.
  - split; [reflexivity | vm_compute; discriminate].
  - destruct (qlt 40 p) eqn:E40.
    + split; [reflexivity | vm_compute; discriminate].
    + apply qlt_false in E60, E40.
      destruct (qlt 70 p) eqn:E70.
      * apply qlt_spec in E70. lra.
      * split; [reflexivity | vm_compute; discriminate].
Qed.


(** Five contributors with ten commits each, and the skewed census
    [1, 1, 1, 1, 100]. *)
Definition commits_equal : list commit :=
  commits_by "a" 10 ++ commits_by "b" 10 ++ commits_by "c" 10 ++
  commits_by "d" 10 ++ commits_by "e" 10.

Definition commits_skewed : list commit :=
  commits_by "a" 1 ++ commits_by "b" 1 ++ commits_by "c" 100 ++
  commits_by "d" 1 ++ commits_by "e" 1.

Definition gini_result (commits : list commit) : option Q :=
  match _analyze_team_collaboration commits !! "contribution_gini_coefficient"%string with
  | Some (VNum q) => Some q
  | _ => None
  end.

(** C5 (evaluation at the failing inputs): on per-contributor counts
    [10,10,10,10,10] the computed contribution_gini_coefficient is -0.2,
    not 0, and on [1,1,1,1,100] it is 73/130 (about 0.56), not about 0.8;
    more generally [n] equal counts give [-1/n]. *)
Theorem gini_coefficient_off_by_one :
  (exists q, gini_result commits_equal = Some q /\ q == -(1#5)) /\
  (exists q, gini_result commits_skewed = Some q /\ q == 73#130) /\
  (forall c n : nat, (1 <= c)%nat -> (1 <= n)%nat ->
     gini_of_sorted (repeat c n) == - (1 / inject_Z (Z.of_nat n))).
Proof.
  split; [eexists; split; [vm_compute; reflexivity | vm_compute; reflexivity]|].
  split; [eexists; split; [vm_compute; reflexivity | vm_compute; reflexivity]|].
  exact gini_of_sorted_repeat.
Qed.

(** A repository with one CI file and no pipeline records. *)
Definition ci_one : list string := ["repo/.gitlab-ci.yml"%string].

(** C6 (counterexample): with no pipeline records, _analyze_cicd returns
    no pipeline_success_rate at all (not 0), and the infrastructure score
    then uses the default 1.0 instead of 0. *)
Lemma cicd_no_pipelines_no_rate :
  _analyze_cicd ci_one [] !! "pipeline_success_rate"%string <> Some (VNum 0) /\
  ~ (_calculate_infrastructure_score (_analyze_cicd ci_one []) ==
     _calculate_infrastructure_score
       (<["pipeline_success_rate" := VNum 0]> (_analyze_cicd ci_one []))).
Proof.
  split; [vm_compute; discriminate|].
  vm_compute. discriminate.
Qed.

Lemma cicd_penalty_absent_rate (m : metrics) :
  m !! "pipeline_success_rate"%string = None ->
  cicd_penalty m = cicd_penalty (<["pipeline_success_rate" := VNum 1.0]> m).
Proof.
  intros H. unfold cicd_penalty.
  rewrite get_insert_ne by discriminate.
  assert (E1 : get m "pipeline_success_rate" (VNum 1.0) = VNum 1.0)
    by (unfold get; rewrite H; reflexivity).
  assert (E2 : get (<["pipeline_success_rate" := VNum 1.0]> m)
                 "pipeline_success_rate" (VNum 1.0) = VNum 1.0)
    by (unfold get; rewrite lookup_insert_eq; reflexivity).
  rewrite E1, E2. reflexivity.
Qed.

(** C6 (amended): with an empty pipeline list _analyze_cicd still returns
    a metrics map holding has_cicd_config and cicd_config_count, without
    pipeline_success_rate, pipeline_failure_rate or recent_pipeline_count;
    for any infrastructure map lacking pipeline_success_rate the score is
    the one computed with a success rate of 1.0. *)
Theorem cicd_no_pipelines_default_rate (ci_files : list string) (m : metrics) :
  m !! "pipeline_success_rate"%string = None ->
  (_analyze_cicd ci_files [] !! "has_cicd_config"%string =
     Some (VBool (0 <? length ci_files)%nat) /\
   _analyze_cicd ci_files [] !! "cicd_config_count"%string =
     Some (VNum (nat_q (length ci_files))) /\
   _analyze_cicd ci_files [] !! "pipeline_success_rate"%string = None /\
   _analyze_cicd ci_files [] !! "pipeline_failure_rate"%string = None /\
   _analyze_cicd ci_files [] !! "recent_pipeline_count"%string = None) /\
  _calculate_infrastructure_score m =
  _calculate_infrastructure_score (<["pipeline_success_rate" := VNum 1.0]> m).
Proof.
  intros H. split.
  - unfold _analyze_cicd. cbv zeta.
    repeat split;
      repeat first [ rewrite lookup_insert_eq; reflexivity
                   | rewrite lookup_insert_ne by discriminate ];
      apply lookup_empty.
  - unfold _calculate_infrastructure_score. cbv zeta. cbn [existsb].
    rewrite <- (cicd_penalty_absent_rate m H).
    rewrite !get_insert_ne by discriminate. reflexivity.
Qed.

(** The infrastructure metrics of a repository with a CI configuration file
    and no pipeline records: the CI/CD branch of the score is taken, so the
    success rate is read and falls back to 1.0. *)
Definition cicd_config_no_pipelines : metrics := _analyze_cicd ci_one [].

Lemma cicd_no_pipelines_default_rate_witness :
  cicd_config_no_pipelines !! "pipeline_success_rate"%string = None /\
  _calculate_infrastructure_score cicd_config_no_pipelines =
  _calculate_infrastructure_score
    (<["pipeline_success_rate" := VNum 1.0]> cicd_config_no_pipelines) /\
  _calculate_infrastructure_score cicd_config_no_pipelines == 3.0 /\
  _calculate_infrastructure_score
    (<["pipeline_success_rate" := VNum 0.5]> cicd_config_no_pipelines) == 4.0.
Proof.
  split; [vm_compute; reflexivity|].
  split.
  - exact (proj2 (cicd_no_pipelines_default_rate ci_one cicd_config_no_pipelines
                    ltac:(vm_compute; reflexivity))).
  - split; vm_compute; reflexivity.
Defined.

(** Code metrics with no tests and 1000 lines per file, nothing else. *)
Definition no_tests_long_files : metrics :=
  <["test_to_code_ratio" := VNum 0]> (<["avg_lines_per_file" := VNum 1000]> ∅).

(** C7 (counterexample): zero test ratio and 1000-line files alone give
    a code quality score of 2.5, which is below 3.0. *)
Lemma code_quality_two_tiers_below_3 :
  _calculate_code_quality_score no_tests_long_files == 2.5 /\
  ~ (3.0 <= _calculate_code_quality_score no_tests_long_files).
Proof.
  assert (E : _calculate_code_quality_score no_tests_long_files == 2.5)
    by (vm_compute; reflexivity).
  split; [exact E | rewrite E; lra].
Qed.

(** C7 (amended): whenever test_to_code_ratio = 0 and
    avg_lines_per_file = 1000, both top tiers fire (+1.5 and +1.0) and the
    code quality score is at least 2.5. *)
Theorem code_quality_two_tiers_at_least (m : metrics) :
  m !! "test_to_code_ratio"%string = Some (VNum 0) ->
  m !! "avg_lines_per_file"%string = Some (VNum 1000) ->
  2.5 <= _calculate_code_quality_score m.
Proof.
  intros Ht Ha. unfold _calculate_code_quality_score. cbv zeta.
  rewrite (get_some m _ _ _ Ht), (get_some m _ _ _ Ha).
  change (test_coverage_penalty (num (VNum 0))) with (test_coverage_penalty 0).
  change (file_size_penalty (num (VNum 1000))) with (file_size_penalty 1000).
  replace (test_coverage_penalty 0) with 1.5 by reflexivity.
  replace (file_size_penalty 1000) with 1.0 by reflexivity.
  apply pymin_ge; [| lra]. penalty_facts. lra.
Qed.

Lemma code_quality_two_tiers_at_least_witness :
  no_tests_long_files !! "test_to_code_ratio"%string = Some (VNum 0) /\
  no_tests_long_files !! "avg_lines_per_file"%string = Some (VNum 1000) /\
  2.5 <= _calculate_code_quality_score no_tests_long_files.
Proof.
  split; [reflexivity|]. split; [reflexivity|].
  apply code_quality_two_tiers_at_least; reflexivity.
Defined.

Definition scan_base (entries : list fs_entry) : census :=
  scan code_extensions_base test_patterns_base config_extensions_base
       ignored_base lower entries.

Definition scan_enhanced (entries : list fs_entry) : census :=
  scan code_extensions_enhanced test_patterns_enhanced
       config_extensions_enhanced ignored_enhanced (fun s => s) entries.

Definition ratio_metric (m : metrics) : option Q :=
  match m !! "test_to_code_ratio"%string with Some (VNum q) => Some q | _ => None end.

Definition avg_lines_metric (m : metrics) : option Q :=
  match m !! "avg_lines_per_file"%string with Some (VNum q) => Some q | _ => None end.

Lemma census_metrics_ratio c r : ratio_metric (census_metrics c r) = Some r.
Proof. reflexivity. Qed.

Lemma census_metrics_avg c r :
  avg_lines_metric (census_metrics c r) =
  Some (inject_Z (Z.of_nat (total_lines c)) / inject_Z (Z.max (Z.of_nat (code_files c)) 1)).
Proof. reflexivity. Qed.

(** C8: when a scan counts no code file, both variants report
    test_to_code_ratio = 0 and avg_lines_per_file = 0, with every divisor
    at least 1. *)
Theorem no_code_files_zero_ratios :
  (forall entries : list fs_entry,
     code_files (scan_base entries) = 0%nat ->
     ratio_metric (_analyze_file_structure entries) = Some 0 /\
     avg_lines_metric (_analyze_file_structure entries) = Some 0) /\
  (forall entries : list fs_entry,
     code_files (scan_enhanced entries) = 0%nat ->
     ratio_metric (enhanced_analyze_file_structure entries) = Some 0 /\
     avg_lines_metric (enhanced_analyze_file_structure entries) = Some 0) /\
  (forall c : census,
     (1 <= Z.max (Z.of_nat (code_files c)) 1)%Z /\
     (1 <= Z.max (Z.of_nat (code_files c) - Z.of_nat (test_files c)) 1)%Z).
Proof.
  split; [|split].
  - intros entries H0. unfold _analyze_file_structure.
    rewrite census_metrics_ratio, census_metrics_avg.
    destruct (scan_inv code_extensions_base test_patterns_base
                config_extensions_base ignored_base lower entries) as [Ht Hl].
    fold (scan_base entries) in *. unfold ratio_base.
    rewrite H0, (Hl H0). replace (test_files (scan_base entries)) with 0%nat by lia.
    split; reflexivity.
  - intros entries H0. unfold enhanced_analyze_file_structure.
    rewrite census_metrics_ratio, census_metrics_avg.
    destruct (scan_inv code_extensions_enhanced test_patterns_enhanced
                config_extensions_enhanced ignored_enhanced (fun s => s) entries)
      as [Ht Hl].
    fold (scan_enhanced entries) in *. unfold ratio_enhanced.
    rewrite H0, (Hl H0). replace (test_files (scan_enhanced entries)) with 0%nat by lia.
    split; reflexivity.
  - intros c. lia.
Qed.

(** A tree with a README, a CI file and no code file. *)
Definition tree_no_code : list fs_entry :=
  [ {| entry_path := "repo/README.md"; entry_is_file := true; entry_lines := Some 40%nat |};
    {| entry_path := "repo/.gitlab-ci.yml"; entry_is_file := true; entry_lines := Some 12%nat |};
    {| entry_path := "repo/docs"; entry_is_file := false; entry_lines := None |} ].

Lemma no_code_files_zero_ratios_witness :
  ratio_metric (_analyze_file_structure tree_no_code) = Some 0 /\
  ratio_metric (enhanced_analyze_file_structure tree_no_code) = Some 0.
Proof.
  destruct no_code_files_zero_ratios as (Hb & He & _).
  split; [apply (Hb tree_no_code) | apply (He tree_no_code)]; vm_compute; reflexivity.
Defined.

(** Census with ten code files of which five are tests. *)
Definition census_10_5 : census := Build_census 10 10 5 0 0.

(** Five sources and five tests, recognised as such by both variants. *)
Definition tree_10_5 : list fs_entry :=
  map (fun s => {| entry_path := s; entry_is_file := true; entry_lines := Some 20%nat |})
    ["repo/src/a.py"; "repo/src/b.py"; "repo/src/c.py"; "repo/src/d.py";
     "repo/src/e.py"; "repo/tests/test_a.py"; "repo/tests/test_b.py";
     "repo/tests/test_c.py"; "repo/tests/test_d.py"; "repo/tests/test_e.py"]%string.

(** C9: CodeAnalyzer divides test_files by max(code_files, 1) and
    EnhancedCodeAnalyzer by max(code_files - test_files, 1); on a census of
    10 code files with 5 tests (found by both scans on [tree_10_5]) they
    report 0.5 and 1.0; on every census without test files they agree. *)
Theorem test_ratio_variants_differ :
  ratio_base census_10_5 == 1#2 /\ ratio_enhanced census_10_5 == 1 /\
  scan_base tree_10_5 = scan_enhanced tree_10_5 /\
  code_files (scan_base tree_10_5) = 10%nat /\ test_files (scan_base tree_10_5) = 5%nat /\
  ratio_metric (_analyze_file_structure tree_10_5) = Some (ratio_base census_10_5) /\
  ratio_metric (enhanced_analyze_file_structure tree_10_5) = Some (ratio_enhanced census_10_5) /\
  (forall c : census, test_files c = 0%nat -> ratio_base c == ratio_enhanced c).
Proof.
  do 7 (split; [vm_compute; reflexivity|]).
  intros c H0. unfold ratio_base, ratio_enhanced. rewrite H0.
  simpl. rewrite Z.sub_0_r. reflexivity.
Qed.

Lemma test_ratio_variants_differ_witness :
  ratio_base census_10_5 == 1#2 /\
  (ratio_base (Build_census 3 3 0 0 10) == ratio_enhanced (Build_census 3 3 0 0 10)).
Proof.
  destruct test_ratio_variants_differ as (H1 & _ & _ & _ & _ & _ & _ & H8).
  split; [exact H1 | apply H8; reflexivity].
Defined.

(** C10: CodeAnalyzer's scan never counts more test files than code files,
    so its test_to_code_ratio is at most 1. *)
Theorem base_test_files_le_code_files (entries : list fs_entry) :
  (test_files (scan_base entries) <= code_files (scan_base entries))%nat /\
  exists r, ratio_metric (_analyze_file_structure entries) = Some r /\ r <= 1.
Proof.
  destruct (scan_inv code_extensions_base test_patterns_base
              config_extensions_base ignored_base lower entries) as [Ht _].
  fold (scan_base entries) in Ht. split; [exact Ht|].
  exists (ratio_base (scan_base entries)). split; [reflexivity|].
  unfold ratio_base.
  set (t := Z.of_nat (test_files (scan_base entries))).
  set (c := Z.max (Z.of_nat (code_files (scan_base entries))) 1).
  assert (Hc : (1 <= c)%Z) by (unfold c; lia).
  assert (Htc : (t <= c)%Z) by (unfold t, c; lia).
  apply Qle_shift_div_r.
  - change 0 with (inject_Z 0). rewrite <- Zlt_Qlt. lia.
  - rewrite Qmult_1_l. rewrite <- Zle_Qle. exact Htc.
Qed.

(** * Further properties of the scanner and the API *)

Lemma debt_fields_range (raw : gmap string metrics) :
  let d := calculate_debt_score raw in
  0 <= code_quality_score d <= 4 /\ 0 <= architecture_score d <= 4 /\
  0 <= infrastructure_score d <= 4 /\ 0 <= operations_score d <= 4.
Proof.
  cbv zeta. unfold calculate_debt_score. cbv zeta.
  cbn [code_quality_score architecture_score infrastructure_score operations_score].
  exact (conj (code_quality_score_range _) (conj (architecture_score_range _)
          (conj (infrastructure_score_range _) (operations_score_range _)))).
Qed.

Lemma qle_bool_false (a b : Q) : ~ a <= b -> Qle_bool a b = false.
Proof.
  intros H. destruct (Qle_bool a b) eqn:E; [|reflexivity].
  apply Qle_bool_iff in E. contradiction.
Qed.

Lemma severity_of_debt_score (v : Q) :
  0 <= v <= 4 ->
  _get_severity v 7.0 = if Qle_bool 2.8 v then "high"%string else "critical"%string.
Proof.
  intros Hv. unfold _get_severity.
  rewrite (qle_bool_false 7.0 v) by lra.
  rewrite (qle_bool_false (7.0 * 0.7) v) by lra.
  destruct (Qle_bool 2.8 v) eqn:E.
  - apply Qle_bool_iff in E.
    assert (Qle_bool (7.0 * 0.4) v = true) as -> by (apply Qle_bool_iff; lra).
    reflexivity.
  - assert (~ 2.8 <= v) by (rewrite <- Qle_bool_iff; congruence).
    rewrite (qle_bool_false (7.0 * 0.4) v) by lra. reflexivity.
Qed.

Lemma qlt_true_of (a b : Q) : a < b -> qlt a b = true.
Proof. apply qlt_spec. Qed.

(** Every debt score lies below 7.0 and below 5.0. *)
Lemma debt_fields_below (raw : gmap string metrics) :
  let d := calculate_debt_score raw in
  qlt (code_quality_score d) 7.0 = true /\ qlt (architecture_score d) 7.0 = true /\
  qlt (infrastructure_score d) 7.0 = true /\ qlt (operations_score d) 7.0 = true /\
  qlt (code_quality_score d) 5.0 = true.
Proof.
  cbv zeta. destruct (debt_fields_range raw) as (A & B & C & D).
  set (d := calculate_debt_score raw) in *. clearbody d.
  repeat split; apply qlt_true_of; lra.
Qed.

(** The API reports the four category scores of [calculate_debt_score]
    against the threshold 7.0; since every score is at most 4.0, each
    severity is "high" (score at least 2.8) or "critical", never "low" or
    "medium". *)
Theorem api_severity_high_or_critical (raw : gmap string metrics) :
  let ms := _convert_metrics_to_api_format (calculate_debt_score raw) in
  length ms = 4%nat /\
  Forall (fun x => dmm_severity x =
            if Qle_bool 2.8 (dmm_value x) then "high"%string else "critical"%string) ms.
Proof.
  cbv zeta. split; [reflexivity|].
  destruct (debt_fields_range raw) as (A & B & C & D).
  set (d := calculate_debt_score raw) in *. clearbody d.
  unfold _convert_metrics_to_api_format.
  do 4 (constructor; [cbn [dmm_severity dmm_value];
                       apply severity_of_debt_score; assumption|]).
  constructor.
Qed.

(** [TechDebtAPI._generate_recommendations] on a [calculate_debt_score]
    result always returns the four improvement recommendations and never
    "Maintain current quality standards". *)
Theorem api_recommendations_always_four (raw : gmap string metrics) :
  api_generate_recommendations (calculate_debt_score raw) =
  ["Improve code quality by reducing complexity and code smells";
   "Review architecture patterns and reduce coupling";
   "Update infrastructure configuration and documentation";
   "Enhance monitoring and operational procedures"]%string.
Proof.
  destruct (debt_fields_below raw) as (A & B & C & D & _).
  set (d := calculate_debt_score raw) in *. clearbody d.
  unfold api_generate_recommendations. cbv zeta.
  rewrite A, B, C, D. reflexivity.
Qed.

(** [_generate_recommendations_from_metrics] on a [calculate_debt_score]
    result always builds all four recommendations, in category order, with
    the code-quality one at priority "high"; the [k]-th draws the [k]-th
    uuid. *)
Theorem recommendations_from_metrics_all_four
    (uuid4 now : nat -> string) (raw : gmap string metrics) :
  let rs := _generate_recommendations_from_metrics uuid4 now (calculate_debt_score raw) in
  map rec_category rs = ["code_quality"; "architecture"; "infrastructure"; "operations"]%string /\
  map rec_priority rs = ["high"; "medium"; "medium"; "low"]%string /\
  map rec_id rs = [uuid4 0%nat; uuid4 1%nat; uuid4 2%nat; uuid4 3%nat].
Proof.
  cbv zeta. destruct (debt_fields_below raw) as (A & B & C & D & E).
  set (d := calculate_debt_score raw) in *. clearbody d.
  unfold _generate_recommendations_from_metrics. cbv zeta.
  rewrite A, B, C, D, E. repeat split; reflexivity.
Qed.

Lemma nat_q_pos (n : nat) : (0 < n)%nat -> 0 < nat_q n.
Proof. intros H. unfold nat_q. change 0 with (inject_Z 0). rewrite <- Zlt_Qlt. lia. Qed.

Lemma nat_q_nonneg (n : nat) : 0 <= nat_q n.
Proof. unfold nat_q. change 0 with (inject_Z 0). rewrite <- Zle_Qle. lia. Qed.

Lemma nat_q_add (a b : nat) : nat_q (a + b) == nat_q a + nat_q b.
Proof. unfold nat_q. rewrite Nat2Z.inj_add, inject_Z_plus. reflexivity. Qed.

Lemma nat_q_le (a b : nat) : (a <= b)%nat -> nat_q a <= nat_q b.
Proof. intros H. unfold nat_q. rewrite <- Zle_Qle. lia. Qed.

Lemma frac_nonneg (a n : nat) : (0 < n)%nat -> 0 <= nat_q a / nat_q n.
Proof.
  intros Hn. apply Qle_shift_div_l; [apply nat_q_pos; exact Hn|].
  rewrite Qmult_0_l. apply nat_q_nonneg.
Qed.

(** Three shares of [n] whose counts add up to at most [n]. *)
Lemma frac_sum_le (a b c n : nat) :
  (a + b + c <= n)%nat -> (0 < n)%nat ->
  nat_q a / nat_q n + nat_q b / nat_q n + nat_q c / nat_q n <= 1.
Proof.
  intros Hle Hn. pose proof (nat_q_pos n Hn) as Hp.
  assert (E : nat_q a / nat_q n + nat_q b / nat_q n + nat_q c / nat_q n ==
              nat_q (a + b + c) / nat_q n)
    by (rewrite !nat_q_add; field; lra).
  rewrite E.
  apply Qle_shift_div_r; [exact Hp|]. rewrite Qmult_1_l. apply nat_q_le. exact Hle.
Qed.

Definition sum3 (ct : gmap string nat) : nat :=
  (count_of ct "fix" + count_of ct "feat" + count_of ct "refactor")%nat.

Lemma count_commit_type_sum3 (ct : gmap string nat) (c : commit_full) :
  (sum3 (count_commit_type ct c) <= S (sum3 ct))%nat.
Proof.
  unfold count_commit_type. destruct (first_commit_type _ _) as [t|]; [|lia].
  unfold sum3, count_of. rewrite !lookup_insert.
  repeat case_decide; subst; try discriminate; simpl; lia.
Qed.

Lemma foldl_sum3 (commits : list commit_full) (ct : gmap string nat) :
  (sum3 (foldl count_commit_type ct commits) <= sum3 ct + length commits)%nat.
Proof.
  revert ct. induction commits as [|c rest IH]; intros ct; simpl; [lia|].
  specialize (IH (count_commit_type ct c)). pose proof (count_commit_type_sum3 ct c). lia.
Qed.

Definition categorized (acc : nat * nat * nat) : nat :=
  let '(mc, fc, rc) := acc in (mc + fc + rc)%nat.

Lemma foldl_categorize (commits : list commit_full) (acc : nat * nat * nat) :
  (categorized (foldl categorize_step acc commits) <= categorized acc + length commits)%nat.
Proof.
  revert acc. induction commits as [|c rest IH]; intros acc; simpl; [lia|].
  specialize (IH (categorize_step acc c)).
  assert (categorized (categorize_step acc c) <= S (categorized acc))%nat.
  { destruct acc as [[mc fc] rc]. unfold categorize_step.
    repeat case_match; simpl; lia. }
  lia.
Qed.

(** [_analyze_development_velocity]: each commit is counted under at most
    one type, so the fix, feature and refactor commit ratios it reports are
    non-negative and add up to at most 1 (missing ratios read as 0). *)
Theorem velocity_ratios_bounded (commits : list commit_full) :
  let v := _analyze_development_velocity commits in
  let r k := num (get v k (VNum 0)) in
  0 <= r "fix_commit_ratio"%string /\ 0 <= r "feature_commit_ratio"%string /\
  0 <= r "refactor_commit_ratio"%string /\
  r "fix_commit_ratio"%string + r "feature_commit_ratio"%string +
    r "refactor_commit_ratio"%string <= 1.
Proof.
  cbv zeta. unfold _analyze_development_velocity.
  destruct commits as [|c0 rest] eqn:Ec; [vm_compute; repeat split; discriminate|].
  rewrite <- Ec. cbv zeta.
  assert (Hn : (0 < length commits)%nat) by (subst; simpl; lia).
  replace (0 <? length commits)%nat with true by (symmetry; apply Nat.ltb_lt; exact Hn).
  pose proof (foldl_sum3 commits commit_types_init) as Hs.
  assert (Hi : sum3 commit_types_init = 0%nat) by reflexivity.
  unfold sum3 in Hs, Hi.
  unfold get.
  repeat first [ rewrite lookup_insert_eq | rewrite lookup_insert_ne by discriminate ].
  simpl num.
  repeat split; try (apply frac_nonneg; exact Hn).
  apply frac_sum_le; [lia | exact Hn].
Qed.

(** [_analyze_maintenance_patterns]: a commit falls in at most one of the
    maintenance, feature and refactor categories, so the three percentages
    are non-negative and add up to at most 100 (missing ones read as 0). *)
Theorem maintenance_percentages_bounded (commits : list commit_full) :
  let v := _analyze_maintenance_patterns commits in
  let r k := num (get v k (VNum 0)) in
  0 <= r "maintenance_commit_percentage"%string /\
  0 <= r "feature_commit_percentage"%string /\
  0 <= r "refactor_commit_percentage"%string /\
  r "maintenance_commit_percentage"%string + r "feature_commit_percentage"%string +
    r "refactor_commit_percentage"%string <= 100.
Proof.
  cbv zeta. unfold _analyze_maintenance_patterns.
  destruct commits as [|c0 rest] eqn:Ec; [vm_compute; repeat split; discriminate|].
  rewrite <- Ec.
  pose proof (foldl_categorize commits (0, 0, 0)%nat) as Hs.
  destruct (foldl categorize_step (0, 0, 0)%nat commits) as [[mc fc] rc].
  simpl in Hs.
  assert (Hn : (0 < length commits)%nat) by (subst; simpl; lia).
  replace (0 <? length commits)%nat with true by (symmetry; apply Nat.ltb_lt; exact Hn).
  unfold get.
  repeat first [ rewrite lookup_insert_eq | rewrite lookup_insert_ne by discriminate ].
  simpl num.
  pose proof (frac_nonneg mc _ Hn). pose proof (frac_nonneg fc _ Hn).
  pose proof (frac_nonneg rc _ Hn).
  pose proof (frac_sum_le rc fc mc (length commits) ltac:(lia) Hn).
  repeat split; nra.
Qed.

Lemma velocity_no_deployments (commits : list commit_full) :
  _analyze_development_velocity commits !! "deployments_per_week"%string = None.
Proof.
  unfold _analyze_development_velocity.
  destruct commits; [map_lookups; apply lookup_empty|].
  cbv zeta. case_match; map_lookups; apply lookup_empty.
Qed.

Lemma team_no_deployments (commits : list commit) :
  _analyze_team_collaboration commits !! "deployments_per_week"%string = None.
Proof.
  unfold _analyze_team_collaboration.
  destruct commits; [apply lookup_empty|].
  cbv zeta. repeat case_match; map_lookups; apply lookup_empty.
Qed.

Lemma maintenance_no_deployments (commits : list commit_full) :
  _analyze_maintenance_patterns commits !! "deployments_per_week"%string = None.
Proof.
  unfold _analyze_maintenance_patterns.
  destruct commits; [apply lookup_empty|].
  destruct (foldl _ _ _) as [[mc fc] rc].
  case_match; map_lookups; apply lookup_empty.
Qed.

(** [analyze_operations] for a project without pipeline records: no
    collector sets deployments_per_week, so the deployment-frequency penalty
    (+1.5) always applies and the operations score is at least 1.5; with
    no commits either, every penalty but the Gini one fires and the score
    is the maximum 4.0. *)
Theorem operations_score_without_pipelines (commits : list commit_full) :
  1.5 <= _calculate_operations_score (analyze_operations_no_pipelines commits) /\
  _calculate_operations_score (analyze_operations_no_pipelines []) == 4.0.
Proof.
  split; [|vm_compute; reflexivity].
  assert (Hdep : get (analyze_operations_no_pipelines commits)
                   "deployments_per_week" (VNum 0) = VNum 0).
  { assert (H : analyze_operations_no_pipelines commits !! "deployments_per_week"%string
                 = None).
    { unfold analyze_operations_no_pipelines, py_update. cbv zeta.
      repeat first [ apply lookup_union_None_2 | apply maintenance_no_deployments
                   | apply team_no_deployments | apply velocity_no_deployments
                   | apply lookup_empty ]. }
    unfold get. rewrite H. reflexivity. }
  unfold _calculate_operations_score. cbv zeta. rewrite Hdep.
  replace (deployment_frequency_penalty (num (VNum 0))) with 1.5 by reflexivity.
  apply pymin_ge; [|lra].
  repeat match goal with |- context [if ?c then _ else _] => destruct c end;
  match goal with |- context [velocity_penalty ?r] =>
    pose proof (velocity_penalty_nonneg r) end;
  match goal with |- context [maintenance_penalty ?r] =>
    pose proof (maintenance_penalty_nonneg r) end;
  lra.
Qed.

Lemma weighted_cumsum_bound (i : nat) (l : list nat) :
  (weighted_cumsum i l + sum_list l <= 2 * (i + length l) * sum_list l)%nat.
Proof.
  revert i. induction l as [|x r IH]; intros i; simpl; [lia|].
  specialize (IH (S i)). unfold id in *. nia.
Qed.

Lemma nat_q_mul (a b : nat) : nat_q (a * b) == nat_q a * nat_q b.
Proof. unfold nat_q. rewrite Nat2Z.inj_mul, inject_Z_mult. reflexivity. Qed.

Lemma nat_q_succ (a : nat) : nat_q (a + 1) == nat_q a + 1.
Proof. rewrite nat_q_add. reflexivity. Qed.

(** The Gini computation never exceeds [1 - 2/n] on [n >= 1] counts with
    a positive total. *)
Lemma gini_of_sorted_le (l : list nat) :
  (1 <= length l)%nat -> (0 < sum_list l)%nat ->
  gini_of_sorted l <= 1 - 2 / nat_q (length l).
Proof.
  intros Hn Hs. unfold gini_of_sorted. cbv zeta.
  pose proof (weighted_cumsum_bound 0 l) as Hw.
  change (inject_Z (Z.of_nat (weighted_cumsum 0 l))) with (nat_q (weighted_cumsum 0 l)).
  change (inject_Z (Z.of_nat (length l * sum_list l))) with (nat_q (length l * sum_list l)).
  change (inject_Z (Z.of_nat (length l + 1))) with (nat_q (length l + 1)).
  change (inject_Z (Z.of_nat (length l))) with (nat_q (length l)).
  rewrite nat_q_mul, nat_q_succ.
  set (S := sum_list l) in *. set (n := length l) in *. set (W := weighted_cumsum 0 l) in *.
  assert (HW : nat_q W + nat_q S <= 2 * nat_q n * nat_q S).
  { rewrite <- nat_q_add.
    assert (E : 2 * nat_q n * nat_q S == nat_q (2 * (0 + n) * S))
      by (replace (0 + n)%nat with n by lia; rewrite !nat_q_mul;
          change (nat_q 2) with 2; reflexivity).
    rewrite E. apply nat_q_le. exact Hw. }
  assert (Hnp : 1 <= nat_q n) by (change 1 with (nat_q 1); apply nat_q_le; exact Hn).
  assert (Hsp : 1 <= nat_q S) by (change 1 with (nat_q 1); apply nat_q_le; exact Hs).
  assert (Hd : nat_q W / (nat_q n * nat_q S) <= 2 - 1 / nat_q n).
  { apply Qle_shift_div_r; [nra|].
    assert (E : (2 - 1 / nat_q n) * (nat_q n * nat_q S) == 2 * nat_q n * nat_q S - nat_q S)
      by (field; lra).
    rewrite E. lra. }
  assert (E1 : (nat_q n + 1) / nat_q n == 1 + 1 / nat_q n) by (field; lra).
  assert (E2 : 2 / nat_q n == 2 * (1 / nat_q n)) by (field; lra).
  rewrite E1, E2. lra.
Qed.

Lemma contributor_commits_pos (commits : list commit) :
  map_Forall (fun _ v => (1 <= v)%nat) (contributor_commits commits).
Proof.
  unfold contributor_commits.
  assert (Hgen : forall acc : gmap string nat,
    map_Forall (fun _ v => (1 <= v)%nat) acc ->
    map_Forall (fun _ v => (1 <= v)%nat)
      (foldl (fun acc c =>
         let email := default "unknown"%string (author_email c) in
         <[email := (default 0 (acc !! email) + 1)%nat]> acc) acc commits)).
  { induction commits as [|c rest IH]; intros acc Hacc; simpl; [exact Hacc|].
    apply IH. apply map_Forall_insert_2; [lia | exact Hacc]. }
  apply Hgen, map_Forall_empty.
Qed.

Lemma sum_list_pos (l : list nat) :
  Forall (fun v => (1 <= v)%nat) l -> (1 <= length l)%nat -> (0 < sum_list l)%nat.
Proof.
  intros Hf Hl. destruct l as [|x r]; simpl in *; [lia|].
  inversion Hf; subst. unfold id. lia.
Qed.

(** [_analyze_team_collaboration]: the reported Gini coefficient never
    exceeds [1 - 2/n], [n] the number of keys of the per-contributor commit
    counts; so with at most 10 of them it is at most 0.8, and the operations
    "gini > 0.8" penalty cannot fire. *)
Theorem gini_coefficient_upper_bound (commits : list commit) (g : Q) :
  _analyze_team_collaboration commits !! "contribution_gini_coefficient"%string =
    Some (VNum g) ->
  g <= 1 - 2 / nat_q (size (contributor_commits commits)) /\
  ((size (contributor_commits commits) <= 10)%nat -> g <= 0.8).
Proof.
  intros H.
  assert (Hg : g <= 1 - 2 / nat_q (size (contributor_commits commits))).
  { unfold _analyze_team_collaboration in H.
    destruct commits as [|c0 rest] eqn:Ec; [rewrite lookup_empty in H; discriminate|].
    rewrite <- Ec in *. cbv zeta in H.
    destruct (1 <? size (contributors commits))%nat;
      [| revert H; map_lookups; rewrite lookup_empty; discriminate].
    destruct (1 <? length (map_to_list (contributor_commits commits)).*2)%nat eqn:El;
      [| revert H; map_lookups; rewrite lookup_empty; discriminate].
    revert H; map_lookups. intros H. injection H as <-.
    set (cs := (map_to_list (contributor_commits commits)).*2) in *.
    assert (Hperm : merge_sort (≤)%nat cs ≡ₚ cs) by apply merge_sort_Permutation.
    assert (Hlen : length cs = size (contributor_commits commits))
      by (unfold cs; rewrite length_fmap; apply length_map_to_list).
    apply Nat.ltb_lt in El.
    assert (Hpos : Forall (fun v => (1 <= v)%nat) cs).
    { unfold cs. apply Forall_fmap.
      pose proof (proj1 (map_Forall_to_list (fun _ v => (1 <= v)%nat) _)
                    (contributor_commits_pos commits)) as Hf.
      eapply Forall_impl; [exact Hf|]. intros [k v]; simpl; auto. }
    rewrite <- Hlen, <- (Permutation_length Hperm).
    apply gini_of_sorted_le.
    - rewrite (Permutation_length Hperm). lia.
    - rewrite Hperm. apply sum_list_pos; [exact Hpos | lia]. }
  split; [exact Hg|].
  intros H10. eapply Qle_trans; [exact Hg|].
  assert (Hn : 1 <= nat_q (size (contributor_commits commits))).
  { (* the branch that sets the coefficient needs at least two keys *)
    unfold _analyze_team_collaboration in H.
    destruct commits; [rewrite lookup_empty in H; discriminate|].
    cbv zeta in H.
    destruct (1 <? length (map_to_list (contributor_commits (c :: commits))).*2)%nat eqn:El.
    - apply Nat.ltb_lt in El. rewrite length_fmap, length_map_to_list in El.
      change 1 with (nat_q 1). apply nat_q_le. lia.
    - destruct (1 <? size (contributors (c :: commits)))%nat;
        revert H; map_lookups; rewrite lookup_empty; discriminate. }
  assert (H10q : nat_q (size (contributor_commits commits)) <= 10)
    by (change 10 with (nat_q 10); apply nat_q_le; exact H10).
  set (n := nat_q (size (contributor_commits commits))) in *.
  assert (H2 : 0.2 <= 2 / n) by (apply Qle_shift_div_l; lra).
  lra.
Qed.

Lemma gini_coefficient_upper_bound_witness :
  exists g, _analyze_team_collaboration commits_skewed !!
              "contribution_gini_coefficient"%string = Some (VNum g) /\
            g <= 0.8.
Proof.
  eexists. split; [vm_compute; reflexivity|].
  apply (gini_coefficient_upper_bound commits_skewed);
    [vm_compute; reflexivity | apply Nat.leb_le; vm_compute; reflexivity].
Defined.

Lemma enhanced_code_score_clamped (em : enhanced_metrics) :
  0 <= enhanced_code_quality_score em <= 4.
Proof.
  unfold enhanced_code_quality_score. cbv zeta. split.
  - apply pymin_nonneg; [eapply Qle_trans; [|apply pymax_ge_r]; lra | lra].
  - eapply Qle_trans; [apply pymin_le_r|lra].
Qed.

(** X8: both scores of the enhanced calculator lie in [0, 4] for every
    input; the .NET architecture bonuses can make the raw code score
    negative, and the [max(score, 0.0)] brings it back to 0. *)
Theorem enhanced_scores_in_range (em : enhanced_metrics) :
  0 <= enhanced_code_quality_score em <= 4 /\
  0 <= enhanced_architecture_score em <= 4.
Proof.
  split; [apply enhanced_code_score_clamped|].
  unfold enhanced_architecture_score. cbv zeta.
  split; [|eapply Qle_trans; [apply pymin_le_r|lra]].
  score_nonneg; lra.
Qed.

Lemma dict_truthy_empty : dict_truthy ∅ = false.
Proof. unfold dict_truthy. rewrite bool_decide_eq_true_2 by reflexivity. reflexivity. Qed.

Lemma test_coverage_penalty_le_code_score (m : metrics) :
  test_coverage_penalty (num (get m "test_to_code_ratio" (VNum 0))) <=
  _calculate_code_quality_score m.
Proof.
  unfold _calculate_code_quality_score. cbv zeta.
  set (tp := test_coverage_penalty _).
  assert (Htp : tp <= 1.5) by (unfold tp, test_coverage_penalty; split_qlt; lra).
  apply pymin_ge; [|lra].
  pose proof (file_size_penalty_nonneg (num (get m "avg_lines_per_file" (VNum 0)))).
  set (t := pymax (num (get m "code_files" (VNum 1))) 1).
  pose proof (large_files_penalty_nonneg (num (get m "large_files_count" (VNum 0)) / t)).
  pose proof (deep_nesting_penalty_nonneg (num (get m "deep_nesting_files" (VNum 0)) / t)).
  pose proof (flake8_penalty_nonneg m t).
  pose proof (documentation_penalty_nonneg (num (get m "code_documentation_ratio" (VNum 1.0)))).
  lra.
Qed.

Lemma readme_penalty_le_architecture_score (m : metrics) :
  (if negb (truthy (get m "has_readme" (VBool false))) then 1 else 0) <=
  _calculate_architecture_score m.
Proof.
  unfold _calculate_architecture_score. cbv zeta.
  apply pymin_ge; [|destruct negb; lra].
  pose proof (directory_depth_penalty_nonneg (num (get m "max_directory_depth" (VNum 0)))).
  destruct (negb (truthy (get m "has_readme" (VBool false)))) eqn:Er;
    repeat match goal with |- context [if ?c then _ else _] => destruct c end; lra.
Qed.

(** X9: without a Java or a .NET analysis section, the enhanced code score
    is the test-coverage penalty alone and the enhanced architecture score
    the missing-README penalty alone; each is at most the base calculator's
    score on the same metrics. *)
Theorem enhanced_scores_without_language_sections (em : enhanced_metrics) :
  default ∅ (em_java_analysis em) = ∅ ->
  default ∅ (em_dotnet_analysis em) = ∅ ->
  enhanced_code_quality_score em ==
    test_coverage_penalty (num (get (em_metrics em) "test_to_code_ratio" (VNum 0))) /\
  enhanced_code_quality_score em <= _calculate_code_quality_score (em_metrics em) /\
  enhanced_architecture_score em ==
    (if negb (truthy (get (em_metrics em) "has_readme" (VBool false))) then 1 else 0) /\
  enhanced_architecture_score em <= _calculate_architecture_score (em_metrics em).
Proof.
  intros Hj Hd.
  assert (Ec : enhanced_code_quality_score em ==
    test_coverage_penalty (num (get (em_metrics em) "test_to_code_ratio" (VNum 0)))).
  { unfold enhanced_code_quality_score. cbv zeta. rewrite Hj, Hd, dict_truthy_empty.
    unfold test_coverage_penalty. split_qlt; vm_compute; reflexivity. }
  assert (Ea : enhanced_architecture_score em ==
    (if negb (truthy (get (em_metrics em) "has_readme" (VBool false))) then 1 else 0)).
  { unfold enhanced_architecture_score. cbv zeta. rewrite Hj, Hd, dict_truthy_empty.
    destruct negb; vm_compute; reflexivity. }
  split; [exact Ec|]. split; [rewrite Ec; apply test_coverage_penalty_le_code_score|].
  split; [exact Ea|]. rewrite Ea. apply readme_penalty_le_architecture_score.
Qed.

Definition em_plain : enhanced_metrics :=
  {| em_metrics := <["test_to_code_ratio" := VNum 0.2]> ∅;
     em_java_analysis := None;
     em_dotnet_analysis := Some ∅ |}.

Lemma enhanced_scores_without_language_sections_witness :
  default ∅ (em_java_analysis em_plain) = ∅ /\
  default ∅ (em_dotnet_analysis em_plain) = ∅ /\
  enhanced_code_quality_score em_plain == 1.0.
Proof.
  split; [reflexivity|]. split; [reflexivity|].
  destruct (enhanced_scores_without_language_sections em_plain eq_refl eq_refl) as [E _].
  rewrite E. vm_compute. reflexivity.
Defined.

Lemma filter_disjoint_length {A} (P Q' : A -> Prop)
    `{!forall x, Decision (P x)} `{!forall x, Decision (Q' x)} (l : list A) :
  (forall x, P x -> Q' x -> False) ->
  (length (filter P l) + length (filter Q' l) <= length l)%nat.
Proof.
  intros Hd. induction l as [|x l IH]; [simpl; lia|].
  rewrite !filter_cons. simpl.
  case_decide as HP; case_decide as HQ; simpl; [exfalso; eauto| lia | lia | lia].
Qed.

Lemma frac2_sum_le (a b n : nat) :
  (a + b <= n)%nat -> (0 < n)%nat -> nat_q a / nat_q n + nat_q b / nat_q n <= 1.
Proof.
  intros Hle Hn. pose proof (nat_q_pos n Hn) as Hp.
  assert (E : nat_q a / nat_q n + nat_q b / nat_q n == nat_q (a + b) / nat_q n)
    by (rewrite !nat_q_add; field; lra).
  rewrite E.
  apply Qle_shift_div_r; [exact Hp|]. rewrite Qmult_1_l. apply nat_q_le. exact Hle.
Qed.

(** X10: with at least one pipeline, [_analyze_cicd] records a success and
    a failure rate that are non-negative and add up to at most 1, and the
    number of pipelines as [recent_pipeline_count]. *)
Theorem cicd_pipeline_rates_bounded (ci_files : list string) (pipelines : list pipeline) :
  pipelines <> [] ->
  exists s f,
    _analyze_cicd ci_files pipelines !! "pipeline_success_rate"%string = Some (VNum s) /\
    _analyze_cicd ci_files pipelines !! "pipeline_failure_rate"%string = Some (VNum f) /\
    0 <= s /\ 0 <= f /\ s + f <= 1 /\
    _analyze_cicd ci_files pipelines !! "recent_pipeline_count"%string =
      Some (VNum (nat_q (length pipelines))).
Proof.
  intros Hne. destruct pipelines as [|p ps]; [congruence|].
  set (l := p :: ps).
  set (sc := length (filter (fun p => status p = Some "success"%string) l)).
  set (fc := length (filter (fun p => status p = Some "failed"%string) l)).
  assert (Hmax : Nat.max (length l) 1 = length l) by (simpl; lia).
  exists (nat_q sc / nat_q (Nat.max (length l) 1)),
         (nat_q fc / nat_q (Nat.max (length l) 1)).
  assert (Hl : forall k v, k <> "avg_pipeline_duration"%string ->
            (<["recent_pipeline_count" := VNum (nat_q (length l))]>
             (<["pipeline_failure_rate" := VNum (nat_q fc / nat_q (Nat.max (length l) 1))]>
              (<["pipeline_success_rate" := VNum (nat_q sc / nat_q (Nat.max (length l) 1))]>
               (<["cicd_config_count" := VNum (nat_q (length ci_files))]>
                (<["has_cicd_config" := VBool (0 <? length ci_files)%nat]> (∅ : metrics))))))
              !! k = Some v ->
            _analyze_cicd ci_files l !! k = Some v).
  { intros k v Hk H. unfold _analyze_cicd, l. cbv beta iota zeta. fold l. fold sc fc.
    destruct omap; [exact H|]. rewrite lookup_insert_ne by congruence. exact H. }
  split; [apply Hl; [discriminate|]; simpl; map_lookups; reflexivity|].
  split; [apply Hl; [discriminate|]; simpl; map_lookups; reflexivity|].
  rewrite Hmax.
  assert (Hn : (0 < length l)%nat) by (simpl; lia).
  split; [apply frac_nonneg; exact Hn|].
  split; [apply frac_nonneg; exact Hn|].
  split.
  - apply frac2_sum_le; [|exact Hn]. unfold sc, fc.
    apply filter_disjoint_length. intros x -> Hx. discriminate.
  - apply Hl; [discriminate|]. simpl. map_lookups. reflexivity.
Qed.

Definition pipelines_mixed : list pipeline :=
  [ {| status := Some "success"%string; duration := Some (VNum 120) |};
    {| status := Some "failed"%string; duration := Some (VNum 0) |};
    {| status := Some "canceled"%string; duration := None |} ].

Lemma cicd_pipeline_rates_bounded_witness :
  pipelines_mixed <> [] /\
  exists s f,
    _analyze_cicd ci_one pipelines_mixed !! "pipeline_success_rate"%string = Some (VNum s) /\
    _analyze_cicd ci_one pipelines_mixed !! "pipeline_failure_rate"%string = Some (VNum f) /\
    s + f <= 1.
Proof.
  split; [discriminate|].
  destruct (cicd_pipeline_rates_bounded ci_one pipelines_mixed ltac:(discriminate))
    as (s & f & Hs & Hf & _ & _ & Hsf & _).
  exists s, f. split; [exact Hs|]. split; [exact Hf|]. exact Hsf.
Defined.

Lemma nesting_fold_bounds (lines : list string) (mx cur : Z) :
  (0 <= cur <= mx)%Z ->
  (0 <= snd (foldl nesting_step (mx, cur) lines) <= fst (foldl nesting_step (mx, cur) lines))%Z /\
  (mx <= fst (foldl nesting_step (mx, cur) lines) <= mx + kept_opens lines)%Z.
Proof.
  revert mx cur. induction lines as [|l ls IH]; intros mx cur H; simpl; [lia|].
  destruct (skip_line l) eqn:Es.
  - destruct (IH mx cur H). lia.
  - set (o := Z.of_nat (line_opens l)). set (c := Z.of_nat (line_closes l)).
    assert (Ho : (0 <= o)%Z) by lia. assert (Hc : (0 <= c)%Z) by lia.
    destruct (IH (Z.max mx (cur + (o - c))) (Z.max 0 (cur + (o - c)))) as [H1 H2]; [lia|].
    lia.
Qed.

Lemma nesting_fold_line (lines : list string) (mx cur : Z) (line : string) :
  (0 <= cur <= mx)%Z -> In line lines -> skip_line line = false ->
  (Z.of_nat (line_opens line) - Z.of_nat (line_closes line) <=
   fst (foldl nesting_step (mx, cur) lines))%Z.
Proof.
  revert mx cur. induction lines as [|l ls IH]; intros mx cur H Hin Hk; [destruct Hin|].
  simpl. destruct Hin as [->|Hin].
  - rewrite Hk.
    destruct (nesting_fold_bounds ls (Z.max mx (cur + (Z.of_nat (line_opens line) -
                 Z.of_nat (line_closes line)))) (Z.max 0 (cur + (Z.of_nat (line_opens line) -
                 Z.of_nat (line_closes line))))) as [_ H2]; lia.
  - destruct (skip_line l) eqn:Es; [apply IH; auto|].
    apply IH; auto; lia.
Qed.

(** X11: the nesting depth is between 0 and the number of openers ([{],
    [if ], [for ], [while ]) on the lines that are not skipped, and at least
    the surplus of openers over closers of any single such line. *)
Theorem max_nesting_bounds (content : string) :
  (0 <= _calculate_max_nesting content <=
     kept_opens (split_on "010"%char content))%Z /\
  (forall line, In line (split_on "010"%char content) -> skip_line line = false ->
     (Z.of_nat (line_opens line) - Z.of_nat (line_closes line) <=
      _calculate_max_nesting content)%Z).
Proof.
  unfold _calculate_max_nesting. split.
  - destruct (nesting_fold_bounds (split_on "010"%char content) 0 0) as [H1 H2]; lia.
  - intros line Hin Hk. apply nesting_fold_line; auto; lia.
Qed.

Lemma count_aux_not_contains (f : nat) (sub s : string) :
  contains sub s = false -> count_aux f sub s = O.
Proof.
  revert f. induction s as [|c s IH]; intros f H; destruct f; simpl; auto.
  simpl in H. apply orb_false_iff in H as [H1 H2]. rewrite H1. apply IH. exact H2.
Qed.

Lemma contains_brace_cons (c : ascii) (s : string) :
  contains "}" (String c s) = Ascii.eqb c "}"%char || contains "}" s.
Proof.
  change (contains "}" (String c s)) with (String.prefix "}" (String c s) || contains "}" s).
  f_equal. cbn [String.prefix].
  destruct (ascii_dec "}"%char c) as [<-|Hne]; [destruct s; reflexivity|].
  destruct (Ascii.eqb_spec c "}"%char); [congruence|reflexivity].
Qed.

Lemma split_on_no_brace (sep : ascii) (s : string) :
  contains "}" s = false -> Forall (fun l => contains "}" l = false) (split_on sep s).
Proof.
  induction s as [|c rest IH]; intros H; simpl.
  - constructor; [reflexivity|constructor].
  - rewrite contains_brace_cons in H. apply orb_false_iff in H as [Hc Hr].
    specialize (IH Hr).
    destruct (Ascii.eqb c sep); [constructor; [reflexivity|exact IH]|].
    destruct (split_on sep rest) as [|p ps].
    + constructor; [|constructor]. rewrite contains_brace_cons, Hc. reflexivity.
    + apply Forall_cons in IH as [Hp Hps].
      constructor; [|exact Hps]. rewrite contains_brace_cons, Hc, Hp. reflexivity.
Qed.

Lemma nesting_fold_no_closers (lines : list string) (mx : Z) :
  (0 <= mx)%Z -> Forall (fun l => line_closes l = O) lines ->
  fst (foldl nesting_step (mx, mx) lines) = (mx + kept_opens lines)%Z.
Proof.
  revert mx. induction lines as [|l ls IH]; intros mx Hmx Hf; simpl; [lia|].
  apply Forall_cons in Hf as [Hl Hls].
  destruct (skip_line l).
  - rewrite IH by assumption. lia.
  - rewrite Hl. change (Z.of_nat 0) with 0%Z.
    replace (Z.max mx (mx + (Z.of_nat (line_opens l) - 0))) with
      (mx + Z.of_nat (line_opens l))%Z by lia.
    replace (Z.max 0 (mx + (Z.of_nat (line_opens l) - 0))) with
      (mx + Z.of_nat (line_opens l))%Z by lia.
    rewrite IH by (assumption || lia). lia.
Qed.

(** X12: on text without a closing brace (Python source, say) the depth
    never goes down: [_calculate_max_nesting] is the total number of
    [{], [if ], [for ] and [while ] occurrences on the lines it does not skip. *)
Theorem max_nesting_without_closing_braces (content : string) :
  contains "}" content = false ->
  _calculate_max_nesting content = kept_opens (split_on "010"%char content).
Proof.
  intros H. unfold _calculate_max_nesting.
  rewrite nesting_fold_no_closers; [reflexivity|lia|].
  eapply Forall_impl; [apply (split_on_no_brace "010"%char content H)|].
  intros l Hl. apply count_aux_not_contains. exact Hl.
Qed.

(** Six flat lines of Python: three [if] (one inside [elif]), two [for],
    one [while], no nested block deeper than one. *)
Definition flat_python : string :=
  "if a:" ++ String "010"%char (
  "    x = 1" ++ String "010"%char (
  "elif b:" ++ String "010"%char (
  "    x = 2" ++ String "010"%char (
  "# if c:" ++ String "010"%char (
  "for i in xs:" ++ String "010"%char (
  "    pass" ++ String "010"%char (
  "for j in ys:" ++ String "010"%char (
  "    pass" ++ String "010"%char (
  "while x and y:" ++ String "010"%char (
  "    x -= 1" ++ String "010"%char (
  "if d:" ++ String "010"%char
  "    pass"))))))))))).

Lemma max_nesting_without_closing_braces_witness :
  contains "}" flat_python = false /\ (5 < _calculate_max_nesting flat_python)%Z.
Proof.
  split; [vm_compute; reflexivity|].
  rewrite (max_nesting_without_closing_braces flat_python) by (vm_compute; reflexivity).
  vm_compute. reflexivity.
Defined.

(** Two defaultdict states agree on every read. *)
Definition dd_agree (pt pt' : gmap string nat) : Prop :=
  forall k, default O (pt' !! k) = default O (pt !! k).

Lemma dd_get_spec (pt : gmap string nat) (k : string) :
  (dd_get pt k).1 = default O (pt !! k) /\ dd_agree pt (dd_get pt k).2 /\
  is_Some ((dd_get pt k).2 !! k).
Proof.
  unfold dd_get, dd_agree. destruct (pt !! k) eqn:E; simpl.
  - split; [reflexivity|]. split; [reflexivity|]. rewrite E. eauto.
  - split; [reflexivity|]. split; [|rewrite lookup_insert_eq; eauto].
    intros k'. destruct (decide (k = k')) as [<-|Hne].
    + rewrite lookup_insert_eq, E. reflexivity.
    + rewrite lookup_insert_ne by exact Hne. reflexivity.
Qed.

Lemma dd_agree_trans (a b c : gmap string nat) : dd_agree a b -> dd_agree b c -> dd_agree a c.
Proof. unfold dd_agree. intros H1 H2 k. rewrite H2, H1. reflexivity. Qed.

Lemma layered_reads_spec (pt : gmap string nat) :
  dd_agree pt (layered_reads pt).2 /\
  ((layered_reads pt).1 = true ->
   (0 < default O (pt !! "controller"%string))%nat /\
   (0 < default O (pt !! "service"%string))%nat /\
   (0 < default O (pt !! "data"%string))%nat).
Proof.
  unfold layered_reads.
  destruct (dd_get_spec pt "controller") as (Hc1 & Hc2 & _).
  destruct (dd_get pt "controller") as [c pt1]. simpl in *.
  destruct (0 <? c)%nat eqn:Ec; [|split; [exact Hc2|discriminate]].
  destruct (dd_get_spec pt1 "service") as (Hs1 & Hs2 & _).
  destruct (dd_get pt1 "service") as [s pt2]. simpl in *.
  destruct (0 <? s)%nat eqn:Es; [|split; [eapply dd_agree_trans; eauto|discriminate]].
  destruct (dd_get_spec pt2 "data") as (Hd1 & Hd2 & _).
  destruct (dd_get pt2 "data") as [d pt3]. simpl in *.
  split; [eapply dd_agree_trans; [eapply dd_agree_trans; eauto|exact Hd2]|].
  intros Hd. apply Nat.ltb_lt in Ec, Es, Hd.
  rewrite <- Hc1. rewrite <- Hc2, <- Hs1. rewrite <- Hc2, <- Hs2, <- Hd1. lia.
Qed.

Lemma sum_values_delete (m : gmap string nat) (k : string) (v : nat) :
  m !! k = Some v ->
  sum_list ((map_to_list m).*2) = (v + sum_list ((map_to_list (delete k m)).*2))%nat.
Proof.
  intros H.
  assert (P : (map_to_list m).*2 ≡ₚ ((k, v) :: map_to_list (delete k m)).*2)
    by (apply fmap_Permutation; symmetry; apply map_to_list_delete; exact H).
  rewrite P. reflexivity.
Qed.

Lemma sum_values_three (m : gmap string nat) (k1 k2 k3 : string) (v1 v2 v3 : nat) :
  k1 <> k2 -> k1 <> k3 -> k2 <> k3 ->
  m !! k1 = Some v1 -> m !! k2 = Some v2 -> m !! k3 = Some v3 ->
  (v1 + v2 + v3 <= sum_list ((map_to_list m).*2))%nat.
Proof.
  intros H12 H13 H23 E1 E2 E3.
  rewrite (sum_values_delete m k1 v1 E1).
  rewrite (sum_values_delete (delete k1 m) k2 v2)
    by (rewrite lookup_delete_ne by congruence; exact E2).
  rewrite (sum_values_delete (delete k2 (delete k1 m)) k3 v3)
    by (rewrite !lookup_delete_ne by congruence; exact E3).
  lia.
Qed.

Lemma default_pos_some (pt : gmap string nat) (k : string) :
  (0 < default O (pt !! k))%nat -> pt !! k = Some (default O (pt !! k)).
Proof. destruct (pt !! k); simpl; [reflexivity|lia]. Qed.

(** X13: the organisation score that [_analyze_architecture_patterns]
    records is never the [0.0] of an empty [package_types] (the defaultdict
    reads before the call have inserted the four layer keys): it is 0.3,
    0.6 or 0.9, and 0.9 whenever a layered architecture is reported. *)
Theorem package_organization_score_from_patterns (package_matches : list (option string)) :
  exists q,
    _analyze_architecture_patterns package_matches !!
      "java_package_organization_score"%string = Some (VNum q) /\
    (q = 0.3 \/ q = 0.6 \/ q = 0.9) /\
    (_analyze_architecture_patterns package_matches !!
       "java_has_layered_architecture"%string = Some (VBool true) -> q = 0.9).
Proof.
  unfold _analyze_architecture_patterns.
  destruct (scan_packages package_matches) as [packages pt0].
  destruct (layered_reads_spec pt0) as [A1 A2].
  destruct (layered_reads pt0) as [h pt1]. simpl in A1, A2.
  destruct (dd_get_spec pt1 "controller") as (_ & B2 & _).
  destruct (dd_get pt1 "controller") as [c pt2]. simpl in B2.
  destruct (dd_get_spec pt2 "service") as (_ & C2 & _).
  destruct (dd_get pt2 "service") as [s pt3]. simpl in C2.
  destruct (dd_get_spec pt3 "data") as (_ & D2 & _).
  destruct (dd_get pt3 "data") as [d pt4]. simpl in D2.
  destruct (dd_get_spec pt4 "model") as (_ & E2 & E3).
  destruct (dd_get pt4 "model") as [mo pt5]. simpl in E2, E3.
  assert (Ag : dd_agree pt0 pt5)
    by (eapply dd_agree_trans; [eapply dd_agree_trans; [eapply dd_agree_trans;
          [eapply dd_agree_trans; [exact A1|exact B2]|exact C2]|exact D2]|exact E2]).
  assert (Hne : bool_decide (pt5 = ∅) = false).
  { apply bool_decide_eq_false_2. intros ->. rewrite lookup_empty in E3.
    destruct E3 as [? E3]. discriminate. }
  exists (_calculate_package_organization_score pt5).
  unfold py_update. rewrite map_union_empty.
  split; [map_lookups; reflexivity|].
  split.
  - unfold _calculate_package_organization_score. rewrite Hne.
    repeat case_match; auto.
  - map_lookups. intros Hh. injection Hh as ->.
    destruct (A2 eq_refl) as (Pc & Ps & Pd).
    rewrite <- (Ag "controller"%string) in Pc.
    rewrite <- (Ag "service"%string) in Ps.
    rewrite <- (Ag "data"%string) in Pd.
    pose proof (sum_values_three pt5 "controller" "service" "data" _ _ _
                  ltac:(discriminate) ltac:(discriminate) ltac:(discriminate)
                  (default_pos_some _ _ Pc) (default_pos_some _ _ Ps)
                  (default_pos_some _ _ Pd)) as Hsum.
    unfold _calculate_package_organization_score. rewrite Hne. cbv zeta.
    destruct (sum_list _ <? 3)%nat eqn:Et; [apply Nat.ltb_lt in Et; lia|].
    apply Nat.ltb_lt in Pc, Ps, Pd. rewrite Pc, Ps, Pd. simpl.
    destruct (default O (pt5 !! "model"%string)); reflexivity.
Qed.

Lemma scan_projects_ok_risk (outs : list (string * (DebtMetrics + string))) :
  Forall (fun e : ok_entry => e.2 = risk_name (_get_risk_level (overall_score e.1.2)))
    (successful_results (scan_projects outs)).
Proof.
  induction outs as [|[n o] outs IH]; simpl; [constructor|].
  destruct o; simpl; [constructor; [reflexivity|exact IH]|exact IH].
Qed.

Lemma scan_projects_ok_sections (outs : list (string * (DebtMetrics + string))) :
  Forall (fun o => match o.2 with inl dm => has_sections dm | inr _ => True end) outs ->
  Forall (fun e : ok_entry => has_sections e.1.2) (successful_results (scan_projects outs)).
Proof.
  induction outs as [|[n o] outs IH]; intros H; simpl; [constructor|].
  apply Forall_cons in H as [Ho Hs]. simpl in Ho.
  destruct o; simpl; [constructor; [exact Ho|apply IH; exact Hs]|apply IH; exact Hs].
Qed.

Lemma successful_plus_errors (results : list scan_result) :
  (length (successful_results results) + count_if is_error results)%nat = length results.
Proof.
  unfold count_if. induction results as [|r rs IH]; [reflexivity|].
  destruct r; simpl; lia.
Qed.

Lemma sum_values_insert_succ (rc : gmap string nat) (k : string) (n : nat) :
  rc !! k = Some n ->
  sum_list ((map_to_list (<[k := S n]> rc)).*2) = S (sum_list ((map_to_list rc).*2)).
Proof.
  intros H.
  rewrite (sum_values_delete (<[k := S n]> rc) k (S n)) by apply lookup_insert_eq.
  rewrite delete_insert_eq. rewrite (sum_values_delete rc k n H). lia.
Qed.

Lemma foldl_count_risk (l : list ok_entry) (rc : gmap string nat) :
  (forall lvl, is_Some (rc !! risk_name lvl)) ->
  Forall (fun e : ok_entry => exists lvl, e.2 = risk_name lvl) l ->
  sum_list ((map_to_list (foldl count_risk rc l)).*2) =
    (sum_list ((map_to_list rc).*2) + length l)%nat.
Proof.
  revert rc. induction l as [|e l IH]; intros rc Hrc Hl; simpl; [lia|].
  apply Forall_cons in Hl as [[lvl He] Hl].
  destruct (Hrc lvl) as [n Hn].
  unfold count_risk at 2. rewrite He, Hn.
  rewrite IH; [rewrite sum_values_insert_succ by exact Hn; lia| |exact Hl].
  intros lvl'. apply lookup_insert_is_Some'. right. apply Hrc.
Qed.

Lemma insert_desc_perm (x : debt_row) (l : list debt_row) : insert_desc x l ≡ₚ x :: l.
Proof.
  induction l as [|y ys IH]; simpl; [reflexivity|].
  destruct (qlt y.1.2 x.1.2); [reflexivity|].
  rewrite IH. constructor.
Qed.

Lemma sort_desc_perm (l : list debt_row) : sort_desc l ≡ₚ l.
Proof.
  unfold sort_desc. enough (H : forall acc, foldl (fun acc x => insert_desc x acc) acc l ≡ₚ l ++ acc)
    by (rewrite H, app_nil_r; reflexivity).
  induction l as [|x l IH]; intros acc; simpl; [reflexivity|].
  rewrite IH, insert_desc_perm. symmetry. apply Permutation_middle.
Qed.

Definition score_desc (x y : debt_row) : Prop := y.1.2 <= x.1.2.

Lemma insert_desc_hd (y x : debt_row) (l : list debt_row) :
  HdRel score_desc y l -> score_desc y x -> HdRel score_desc y (insert_desc x l).
Proof.
  intros H Hyx. destruct l as [|z zs]; simpl; [constructor; exact Hyx|].
  destruct (qlt z.1.2 x.1.2); constructor; [exact Hyx|]. inversion H; assumption.
Qed.

Lemma insert_desc_sorted (x : debt_row) (l : list debt_row) :
  Sorted score_desc l -> Sorted score_desc (insert_desc x l).
Proof.
  induction l as [|y ys IH]; intros H; simpl; [constructor; constructor|].
  inversion H as [|? ? Hys Hhd]; subst.
  destruct (qlt y.1.2 x.1.2) eqn:E.
  - apply qlt_spec in E. constructor; [exact H|]. constructor. unfold score_desc. lra.
  - apply qlt_false in E. constructor; [apply IH; exact Hys|].
    apply insert_desc_hd; [exact Hhd|exact E].
Qed.

Lemma sort_desc_sorted (l : list debt_row) : Sorted score_desc (sort_desc l).
Proof.
  unfold sort_desc. enough (H : forall acc, Sorted score_desc acc ->
    Sorted score_desc (foldl (fun acc x => insert_desc x acc) acc l)) by (apply H; constructor).
  induction l as [|x l IH]; intros acc Ha; simpl; [exact Ha|].
  apply IH, insert_desc_sorted, Ha.
Qed.

Lemma Sorted_take {A} (R : A -> A -> Prop) (n : nat) (l : list A) :
  Sorted R l -> Sorted R (take n l).
Proof.
  revert n. induction l as [|x l IH]; intros n H; (destruct n; simpl; [constructor|]);
    [constructor|].
  inversion H as [|? ? Hl Hhd]; subst. constructor; [apply IH; exact Hl|].
  destruct l as [|y l]; destruct n; simpl; constructor. inversion Hhd. assumption.
Qed.

Lemma recommendations_some (l : list ok_entry) :
  Forall (fun e : ok_entry => has_sections e.1.2) l -> is_Some (_generate_recommendations l).
Proof.
  intros H. destruct l as [|e l]; [eexists; reflexivity|].
  unfold _generate_recommendations. cbv beta iota.
  assert (Hm : is_Some (mapM rec_sections (e :: l))).
  { apply mapM_is_Some_2. eapply Forall_impl; [exact H|].
    intros [[n dm] rl] (Hi & Hc & Ha). simpl in *. unfold compose, rec_sections. simpl.
    destruct Hi as [i ->], Hc as [c ->], Ha as [a ->]. eexists. reflexivity. }
  destruct Hm as [secs ->]. simpl. eexists. reflexivity.
Qed.

(** X14: on the results of [scan_projects] whose metrics carry the
    sections the recommendations read, [generate_report] produces a report
    whose successful and failed counts add up to the total, whose risk
    distribution counts every successful scan exactly once, and whose top
    list holds the first [min 10 successful] rows in decreasing score order,
    each tagged with the risk level of its score. *)
Theorem generate_report_summary (outs : list (string * (DebtMetrics + string))) :
  Forall (fun o => match o.2 with inl dm => has_sections dm | inr _ => True end) outs ->
  exists rep, generate_report (scan_projects outs) = Some rep /\
    (successful_scans rep + failed_scans rep)%nat = total_projects rep /\
    sum_list ((map_to_list (risk_distribution rep)).*2) = successful_scans rep /\
    length (top_debt_projects rep) = Nat.min 10 (successful_scans rep) /\
    Sorted score_desc (top_debt_projects rep) /\
    Forall (fun row : debt_row => row.2 = risk_name (_get_risk_level row.1.2))
      (top_debt_projects rep).
Proof.
  intros H.
  set (succ := successful_results (scan_projects outs)).
  destruct (recommendations_some succ (scan_projects_ok_sections outs H)) as [recs Er].
  unfold generate_report. fold succ. rewrite Er. simpl.
  eexists. split; [reflexivity|]. simpl.
  split; [apply successful_plus_errors|].
  split.
  - rewrite foldl_count_risk.
    + replace (sum_list ((map_to_list risk_counts_init).*2)) with O by (vm_compute; reflexivity).
      reflexivity.
    + intros []; vm_compute; eexists; reflexivity.
    + eapply Forall_impl; [apply scan_projects_ok_risk|]. intros e He. eexists. exact He.
  - split; [rewrite length_take, sort_desc_perm, length_map; reflexivity|].
    split; [apply Sorted_take, sort_desc_sorted|].
    apply Forall_take. rewrite sort_desc_perm.
    pose proof (scan_projects_ok_risk outs) as Hr. fold succ in Hr.
    clear Er. induction Hr as [|[[n dm] rl] es He Hes IH]; simpl; [constructor|].
    constructor; [simpl in *; exact He|exact IH].
Qed.

Definition raw_three_sections : gmap string metrics :=
  <["code_analysis" := <["test_to_code_ratio" := VNum 0]> ∅]>
  (<["architecture_analysis" := ∅]> (<["infrastructure_analysis" := ∅]> ∅)).

Definition sample_outs : list (string * (DebtMetrics + string)) :=
  [("billing"%string, inl (calculate_debt_score raw_three_sections));
   ("ledger"%string, inr "clone failed"%string);
   ("reports"%string, inl (calculate_debt_score ∅))].

Lemma generate_report_summary_witness :
  Forall (fun o => match o.2 with inl dm => has_sections dm | inr _ => True end)
    (take 2 sample_outs) /\
  exists rep, generate_report (scan_projects (take 2 sample_outs)) = Some rep /\
    (successful_scans rep + failed_scans rep)%nat = total_projects rep /\
    length (top_debt_projects rep) = 1%nat.
Proof.
  assert (H : Forall (fun o => match o.2 with inl dm => has_sections dm | inr _ => True end)
                (take 2 sample_outs)).
  { constructor; [|constructor; [exact I|constructor]].
    split; [|split]; eexists; vm_compute; reflexivity. }
  split; [exact H|].
  destruct (generate_report_summary (take 2 sample_outs) H)
    as (rep & Hr & Hsum & _ & Hlen & _).
  exists rep. split; [exact Hr|]. split; [exact Hsum|].
  rewrite Hlen. revert Hr. vm_compute. intros Hr. injection Hr as <-. reflexivity.
Defined.

Lemma risk_level_critical_iff (s : Q) : _get_risk_level s = Critical <-> 3 < s.
Proof.
  destruct (risk_level_tiers s) as (H1 & H2 & H3 & H4). split.
  - intros Hc. destruct (Qlt_le_dec 3 s) as [Hlt|Hle]; [exact Hlt|].
    destruct (Qlt_le_dec 2 s); [rewrite H3 in Hc by lra; discriminate|].
    destruct (Qlt_le_dec 1 s); [rewrite H2 in Hc by lra; discriminate|].
    rewrite H1 in Hc by lra. discriminate.
  - intros Hs. apply H4. lra.
Qed.

Lemma risk_name_critical (r : risk_level) : risk_name r = "Critical"%string -> r = Critical.
Proof. destruct r; simpl; intros H; [discriminate..|reflexivity]. Qed.

Lemma msg_critical_distinct (k a b : nat) :
  msg_critical k <> msg_no_cicd a b /\ msg_critical k <> msg_no_tests a b /\
  msg_critical k <> msg_no_docs a b /\ msg_critical k <> msg_no_containers a b.
Proof.
  unfold msg_critical, msg_no_cicd, msg_no_tests, msg_no_docs, msg_no_containers.
  split; [|split; [|split]]; intros Heq; apply (f_equal (String.get 0)) in Heq;
    cbv beta iota delta [String.get append] in Heq; discriminate Heq.
Qed.

(** The four threshold recommendations, before the critical-risk one. *)
Lemma threshold_recommendations_shape (t a b c d : nat) :
  (length (threshold_recommendations t a b c d) <= 4)%nat /\
  forall k, ~ In (msg_critical k) (threshold_recommendations t a b c d).
Proof.
  unfold threshold_recommendations. cbv zeta.
  split; [repeat case_match; simpl; lia|].
  intros k. destruct (msg_critical_distinct k a t) as (D1 & _ & _ & _).
  destruct (msg_critical_distinct k b t) as (_ & D2 & _ & _).
  destruct (msg_critical_distinct k c t) as (_ & _ & D3 & _).
  destruct (msg_critical_distinct k d t) as (_ & _ & _ & D4).
  repeat case_match; simpl; intuition congruence.
Qed.

(** X15: [_generate_recommendations] on the successful results of
    [scan_projects] gives at most five recommendations, none for no
    results, and the critical-risk one exactly when some scanned project
    has an overall score above 3.0. *)
Theorem agent_recommendations_bounded (outs : list (string * (DebtMetrics + string)))
    (recs : list string) :
  _generate_recommendations (successful_results (scan_projects outs)) = Some recs ->
  (length recs <= 5)%nat /\
  (successful_results (scan_projects outs) = [] -> recs = []) /\
  ((exists k, In (msg_critical k) recs) <->
   Exists (fun e : ok_entry => 3 < overall_score e.1.2)
     (successful_results (scan_projects outs))).
Proof.
  pose proof (scan_projects_ok_risk outs) as Hrisk.
  set (succ := successful_results (scan_projects outs)) in *.
  clearbody succ. intros Er.
  destruct succ as [|e l].
  - injection Er as <-. split; [simpl; lia|]. split; [reflexivity|].
    split; [intros [k []]|intros Hx; inversion Hx].
  - unfold _generate_recommendations in Er.
    remember (List.filter (fun r : ok_entry => String.eqb r.2 "Critical") (e :: l)) as crit eqn:Ecrit.
    assert (Hcrit : forall x, In x crit <-> In x (e :: l) /\ 3 < overall_score x.1.2).
    { intros x. rewrite Ecrit, filter_In, String.eqb_eq.
      split; intros [Hin Hx]; split; auto.
      - rewrite List.Forall_forall in Hrisk. rewrite (Hrisk x Hin) in Hx.
        apply risk_name_critical in Hx. apply risk_level_critical_iff. exact Hx.
      - rewrite List.Forall_forall in Hrisk. rewrite (Hrisk x Hin).
        apply risk_level_critical_iff in Hx. rewrite Hx. reflexivity. }
    clear Ecrit. cbv beta match in Er.
    destruct (mapM rec_sections (e :: l)) as [secs|]; [|discriminate].
    cbv beta match zeta delta [mbind option_bind] in Er. injection Er as <-.
    destruct (threshold_recommendations_shape
      (S (length l))
      (count_if (fun '(infra, _, _) => negb (truthy (get infra "has_cicd_config" (VBool false)))) secs)
      (count_if (fun '(_, code, _) => qlt (num (get code "test_to_code_ratio" (VNum 0))) 0.1) secs)
      (count_if (fun '(_, _, arch) => negb (truthy (get arch "has_readme" (VBool false)))) secs)
      (count_if (fun '(infra, _, _) => negb (truthy (get infra "is_containerized" (VBool false)))) secs))
      as [Hlen Hnot].
    destruct crit as [|c cs].
    + split; [lia|]. split; [discriminate|]. split.
      * intros [k Hk]. exfalso. exact (Hnot k Hk).
      * intros Hx. apply List.Exists_exists in Hx as [x [Hin Hx]].
        destruct (proj2 (Hcrit x) (conj Hin Hx)).
    + split; [rewrite length_app; simpl; lia|]. split; [discriminate|]. split.
      * intros _. apply List.Exists_exists. exists c. apply (Hcrit c). left. reflexivity.
      * intros _. exists (length (c :: cs)). apply in_or_app. right. left. reflexivity.
Qed.

Lemma agent_recommendations_bounded_witness :
  _generate_recommendations (successful_results (scan_projects (take 2 sample_outs))) =
    Some [msg_no_cicd 1 1; msg_no_tests 1 1; msg_no_docs 1 1; msg_no_containers 1 1;
          msg_critical 1] /\
  Exists (fun e : ok_entry => 3 < overall_score e.1.2)
    (successful_results (scan_projects (take 2 sample_outs))).
Proof.
  assert (E : _generate_recommendations (successful_results (scan_projects (take 2 sample_outs))) =
    Some [msg_no_cicd 1 1; msg_no_tests 1 1; msg_no_docs 1 1; msg_no_containers 1 1;
          msg_critical 1])
    by (vm_compute; reflexivity).
  split; [exact E|].
  apply (proj2 (proj2 (agent_recommendations_bounded (take 2 sample_outs) _ E))).
  exists 1%nat. simpl. tauto.
Defined.

(** Closing [m !! k = None] for a map built by [py_update] and inserts
    of other literal keys. *)
Ltac absent_key :=
  unfold py_update;
  repeat first [ apply lookup_union_None_2
               | rewrite lookup_insert_ne by discriminate
               | rewrite lookup_empty; reflexivity ].

Lemma file_structure_no_doc_ratio (entries : list fs_entry) :
  _analyze_file_structure entries !! "code_documentation_ratio"%string = None.
Proof. unfold _analyze_file_structure, census_metrics. absent_key. Qed.

Lemma python_code_no_doc_ratio (t : code_tools) :
  _analyze_python_code t !! "code_documentation_ratio"%string = None.
Proof.
  unfold _analyze_python_code. destruct (flake8_run t) as [[rc n]|];
    [destruct (Z.eqb rc 0)|]; absent_key.
Qed.

Lemma javascript_code_no_doc_ratio (t : code_tools) :
  _analyze_javascript_code t !! "code_documentation_ratio"%string = None.
Proof.
  unfold _analyze_javascript_code. cbn [foldl js_config_files].
  destruct (package_json t) as [[[d dd] [sc|]]|]; absent_key.
Qed.

Lemma java_code_no_doc_ratio (t : code_tools) :
  _analyze_java_code t !! "code_documentation_ratio"%string = None.
Proof. unfold _analyze_java_code. absent_key. Qed.

Lemma complexity_no_doc_ratio (files : list cx_entry) :
  _analyze_complexity files !! "code_documentation_ratio"%string = None.
Proof.
  unfold _analyze_complexity. destruct (foldl complexity_step _ files) as [[a b] c].
  absent_key.
Qed.

(** X16: no analyser of [analyze_code_quality] writes
    ["code_documentation_ratio"] (only the architecture analyser's
    [_analyze_documentation] does), so on the code-analysis metrics the
    documentation penalty of [_calculate_code_quality_score] reads the
    default 1.0 and is always 0. *)
Theorem code_quality_metrics_lack_doc_ratio (entries : list fs_entry) (files : list cx_entry)
    (t : code_tools) :
  analyze_code_quality entries files t !! "code_documentation_ratio"%string = None /\
  documentation_penalty
    (num (get (analyze_code_quality entries files t) "code_documentation_ratio" (VNum 1.0))) = 0.
Proof.
  assert (H : analyze_code_quality entries files t !! "code_documentation_ratio"%string = None).
  { unfold analyze_code_quality. cbv zeta. unfold py_update.
    apply lookup_union_None_2; [apply complexity_no_doc_ratio|].
    destruct (mem_string "Java" _);
      [apply lookup_union_None_2; [apply java_code_no_doc_ratio|]|].
    all: destruct (mem_string "JavaScript" _ || mem_string "TypeScript" _);
      [apply lookup_union_None_2; [apply javascript_code_no_doc_ratio|]|].
    all: destruct (mem_string "Python" _);
      [apply lookup_union_None_2; [apply python_code_no_doc_ratio|]|].
    all: apply lookup_union_None_2; [apply file_structure_no_doc_ratio|apply lookup_empty]. }
  split; [exact H|]. unfold get. rewrite H. reflexivity.
Qed.

(** ** The primary-language detector *)

Fixpoint assoc_count (fc : list (string * nat)) (l : string) : nat :=
  match fc with
  | [] => 0%nat
  | (k, n) :: rest => if String.eqb k l then n else assoc_count rest l
  end.

Lemma bump_count fc l l' :
  assoc_count (bump l fc) l' =
  if String.eqb l l' then S (assoc_count fc l') else assoc_count fc l'.
Proof.
  induction fc as [|[k n] r IH]; simpl.
  - destruct (String.eqb l l'); reflexivity.
  - destruct (String.eqb_spec k l) as [->|Hkl]; simpl.
    + destruct (String.eqb l l'); reflexivity.
    + rewrite IH. destruct (String.eqb_spec k l') as [->|Hkl']; [|reflexivity].
      destruct (String.eqb_spec l l') as [->|]; [congruence|reflexivity].
Qed.

Lemma file_counts_fold entries fc l :
  assoc_count (foldl count_file fc entries) l = (assoc_count fc l + lang_count entries l)%nat.
Proof.
  revert fc. induction entries as [|e es IH]; intros fc; simpl.
  - unfold lang_count, count_if. simpl. lia.
  - rewrite IH. unfold lang_count, count_if, count_file.
    destruct (entry_is_file e) eqn:Hf;
      [|cbn [List.filter]; rewrite Hf; reflexivity].
    destruct (ext_lookup primary_extensions (suffix (entry_path e))) as [lang|] eqn:Hx;
      cbn [List.filter]; rewrite Hf, Hx; cbn [andb]; [|reflexivity].
    rewrite bump_count. destruct (String.eqb lang l); cbn [length]; lia.
Qed.

Lemma file_counts_count entries l :
  assoc_count (file_counts entries) l = lang_count entries l.
Proof. unfold file_counts. rewrite file_counts_fold. reflexivity. Qed.

Lemma bump_keys fc l k : In k (map fst (bump l fc)) <-> k = l \/ In k (map fst fc).
Proof.
  induction fc as [|[k' n] r IH]; simpl; [intuition congruence|].
  destruct (String.eqb_spec k' l) as [->|]; simpl; [intuition congruence|].
  rewrite IH. intuition congruence.
Qed.

Lemma bump_nodup fc l : List.NoDup (map fst fc) -> List.NoDup (map fst (bump l fc)).
Proof.
  induction fc as [|[k n] r IH]; simpl; intros Hnd.
  - constructor; [simpl; tauto|constructor].
  - inversion Hnd as [|? ? Hnin Hnd']; subst.
    destruct (String.eqb_spec k l) as [->|Hkl]; simpl; constructor; auto.
    rewrite bump_keys. intros [->|]; [congruence|tauto].
Qed.

Lemma bump_pos fc l :
  Forall (fun x => (1 <= x.2)%nat) fc -> Forall (fun x => (1 <= x.2)%nat) (bump l fc).
Proof.
  induction fc as [|[k n] r IH]; simpl; intros Hf.
  - constructor; [simpl; lia|constructor].
  - inversion Hf; subst. destruct (String.eqb k l); constructor; simpl in *; auto; lia.
Qed.

Lemma file_counts_invariant entries fc :
  List.NoDup (map fst fc) -> Forall (fun x => (1 <= x.2)%nat) fc ->
  List.NoDup (map fst (foldl count_file fc entries)) /\
  Forall (fun x => (1 <= x.2)%nat) (foldl count_file fc entries).
Proof.
  revert fc. induction entries as [|e es IH]; intros fc Hnd Hpos; simpl; [auto|].
  apply IH; unfold count_file;
    destruct (entry_is_file e); try assumption;
    destruct (ext_lookup primary_extensions (suffix (entry_path e))); try assumption.
  - apply bump_nodup; assumption.
  - apply bump_pos; assumption.
Qed.

Lemma assoc_count_in fc l : (1 <= assoc_count fc l)%nat -> In (l, assoc_count fc l) fc.
Proof.
  induction fc as [|[k n] r IH]; simpl; intros H; [lia|].
  destruct (String.eqb_spec k l) as [->|]; [left; reflexivity|right; auto].
Qed.

Lemma in_assoc_count fc l n : List.NoDup (map fst fc) -> In (l, n) fc -> assoc_count fc l = n.
Proof.
  induction fc as [|[k m] r IH]; simpl; intros Hnd Hin; [contradiction|].
  inversion Hnd as [|? ? Hnin Hnd']; subst.
  destruct Hin as [Heq|Hin].
  - inversion Heq; subst. rewrite String.eqb_refl. reflexivity.
  - destruct (String.eqb_spec k l) as [->|]; [|auto].
    exfalso. apply Hnin. apply (in_map fst) in Hin. exact Hin.
Qed.

Lemma py_max_fold (r : list (string * nat)) acc :
  let res := fold_left (fun best x => if (best.2 <? x.2)%nat then x else best) r acc in
  (res = acc \/ In res r) /\ (acc.2 <= res.2)%nat /\ Forall (fun x => (x.2 <= res.2)%nat) r.
Proof.
  revert acc. induction r as [|x r IH]; intros acc; simpl.
  - split; [left; reflexivity|split; [lia|constructor]].
  - destruct (Nat.ltb_spec acc.2 x.2) as [Hlt|Hge].
    + destruct (IH x) as [Hor [Hle Hall]].
      split; [right; destruct Hor as [->|]; tauto|].
      split; [lia|constructor; assumption].
    + destruct (IH acc) as [Hor [Hle Hall]].
      split; [destruct Hor as [->|]; tauto|].
      split; [lia|constructor; [lia|assumption]].
Qed.

Lemma py_max_key_spec fc best :
  py_max_key fc = Some best ->
  exists bn, In (best, bn) fc /\ Forall (fun x => (x.2 <= bn)%nat) fc.
Proof.
  destruct fc as [|first rest]; simpl; intros H; [discriminate|].
  injection H as <-.
  destruct (py_max_fold rest first) as [Hor [Hle Hall]].
  set (res := fold_left _ rest first) in *.
  exists res.2. rewrite <- surjective_pairing. split.
  - destruct Hor as [Heq|Hin]; [rewrite Heq; left; reflexivity|right; exact Hin].
  - constructor; assumption.
Qed.

Lemma ext_lookup_values sfx l :
  ext_lookup primary_extensions sfx = Some l -> In l (map snd primary_extensions).
Proof.
  unfold primary_extensions. simpl.
  repeat match goal with
         | |- (if ?c then _ else _) = _ -> _ => destruct c
         end; intros H; try discriminate; injection H as <-; simpl; tauto.
Qed.

Lemma lang_count_unknown entries : lang_count entries "Unknown" = 0%nat.
Proof.
  unfold lang_count, count_if. induction entries as [|e es IH]; [reflexivity|].
  cbn [List.filter].
  destruct (entry_is_file e); cbn [andb]; [|exact IH].
  destruct (ext_lookup primary_extensions (suffix (entry_path e))) as [l|] eqn:Hl;
    [|exact IH].
  apply ext_lookup_values in Hl.
  destruct (String.eqb_spec l "Unknown") as [->|]; [|exact IH].
  exfalso. simpl in Hl. repeat (destruct Hl as [Hl|Hl]; [discriminate|]). exact Hl.
Qed.

Lemma foldl_count_file_none entries fc :
  (forall e, In e entries -> entry_is_file e = true ->
             ext_lookup primary_extensions (suffix (entry_path e)) = None) ->
  foldl count_file fc entries = fc.
Proof.
  revert fc. induction entries as [|e es IH]; intros fc H; simpl; [reflexivity|].
  unfold count_file at 2.
  destruct (entry_is_file e) eqn:Hf.
  - rewrite (H e (or_introl eq_refl) Hf). apply IH. intros; apply H; simpl; auto.
  - apply IH. intros; apply H; simpl; auto.
Qed.

(** X17: [_detect_primary_language] returns "Unknown" exactly when no
    file has one of the nine listed suffixes, and otherwise a language
    counted at least as often as every other language. *)
Theorem primary_language_most_frequent entries :
  (_detect_primary_language entries = "Unknown"%string <->
   forall e, In e entries -> entry_is_file e = true ->
             ext_lookup primary_extensions (suffix (entry_path e)) = None) /\
  forall lang, (lang_count entries lang <= lang_count entries (_detect_primary_language entries))%nat.
Proof.
  destruct (file_counts_invariant entries [] ltac:(constructor) ltac:(constructor))
    as [Hnd Hpos].
  fold (file_counts entries) in Hnd, Hpos.
  unfold _detect_primary_language.
  destruct (py_max_key (file_counts entries)) as [best|] eqn:Hmax.
  - destruct (py_max_key_spec _ _ Hmax) as [bn [Hin Hall]].
    pose proof (in_assoc_count _ _ _ Hnd Hin) as Hbn.
    rewrite file_counts_count in Hbn.
    assert (Hb1 : (1 <= bn)%nat)
      by (rewrite List.Forall_forall in Hpos; exact (Hpos _ Hin)).
    split.
    + split.
      * intros ->. rewrite lang_count_unknown in Hbn. lia.
      * intros Hnone. exfalso.
        unfold file_counts in Hin. rewrite foldl_count_file_none in Hin by exact Hnone.
        contradiction.
    + intros lang. rewrite Hbn.
      destruct (lang_count entries lang) as [|c] eqn:Hc; [lia|].
      rewrite <- file_counts_count in Hc.
      pose proof (assoc_count_in (file_counts entries) lang ltac:(lia)) as Hl.
      rewrite List.Forall_forall in Hall. specialize (Hall _ Hl). simpl in Hall. lia.
  - assert (Hnil : file_counts entries = []) by
      (destruct (file_counts entries); [reflexivity|discriminate]).
    split.
    + split; [intros _|reflexivity].
      intros e He Hf.
      destruct (ext_lookup primary_extensions (suffix (entry_path e))) as [l|] eqn:Hl;
        [exfalso|reflexivity].
      assert (H1 : (1 <= lang_count entries l)%nat).
      { unfold lang_count, count_if.
        assert (Hp : In e (List.filter (fun e => entry_is_file e &&
              match ext_lookup primary_extensions (suffix (entry_path e)) with
              | Some l' => String.eqb l' l | None => false end) entries)).
        { apply filter_In. split; [exact He|]. rewrite Hf, Hl, String.eqb_refl. reflexivity. }
        destruct (List.filter _ entries); [contradiction|simpl; lia]. }
      rewrite <- file_counts_count, Hnil in H1. simpl in H1. lia.
    + intros lang. rewrite <- !file_counts_count, Hnil. simpl. lia.
Qed.

(** ** The documentation analyser *)

Definition doc_upd (r : doc_repo) (m : metrics) (doc_file : string) : metrics :=
  if String.prefix "README" doc_file then
    match read_if r doc_file with
    | Some content => readme_metrics m content
    | None => m
    end
  else m.

Lemma doc_step_eq r m found d :
  doc_step r (m, found) d =
  (doc_upd r m d, if doc_exists r d then found ++ [d] else found).
Proof.
  unfold doc_step, doc_upd, read_if.
  destruct (doc_exists r d), (String.prefix "README" d); try reflexivity.
  destruct (doc_read r d); reflexivity.
Qed.

Lemma doc_fold r l m found :
  foldl (doc_step r) (m, found) l =
  (foldl (doc_upd r) m l, found ++ List.filter (doc_exists r) l).
Proof.
  revert m found. induction l as [|d l IH]; intros m found.
  - cbn [foldl List.filter]. rewrite app_nil_r. reflexivity.
  - cbn [foldl List.filter]. rewrite doc_step_eq, IH.
    destruct (doc_exists r d); [rewrite <- app_assoc|]; reflexivity.
Qed.

Lemma doc_upd_readme_length r m d :
  doc_upd r m d !! "readme_length"%string =
  if String.prefix "README" d then
    match read_if r d with
    | Some c => Some (VNum (nat_q (String.length c)))
    | None => m !! "readme_length"%string
    end
  else m !! "readme_length"%string.
Proof.
  unfold doc_upd. destruct (String.prefix "README" d); [|reflexivity].
  destruct (read_if r d); [|reflexivity].
  unfold readme_metrics. rewrite lookup_insert_ne by discriminate.
  rewrite lookup_insert_eq. reflexivity.
Qed.

Lemma doc_fold_other r l m k :
  k <> "readme_length"%string -> k <> "readme_has_sections"%string ->
  foldl (doc_upd r) m l !! k = m !! k.
Proof.
  intros H1 H2. revert m. induction l as [|d l IH]; intros m; [reflexivity|].
  cbn [foldl]. rewrite IH. unfold doc_upd.
  destruct (String.prefix "README" d); [|reflexivity].
  destruct (read_if r d); [|reflexivity].
  unfold readme_metrics. rewrite !lookup_insert_ne by congruence. reflexivity.
Qed.

Lemma count_if_le {A} (p : A -> bool) l : (count_if p l <= length l)%nat.
Proof.
  unfold count_if. induction l as [|x l IH]; simpl; [lia|].
  destruct (p x); simpl; lia.
Qed.

Definition doc_core (r : doc_repo) : metrics :=
  let found_docs := List.filter (doc_exists r) doc_file_names in
  <["has_readme" := VBool (existsb (contains "README") found_docs)]>
  (<["documentation_files" := VNum (nat_q (length found_docs))]>
   (foldl (doc_upd r) ∅ doc_file_names)).

Lemma doc_lookup_core r k :
  k <> "code_documentation_ratio"%string ->
  _analyze_documentation r !! k = doc_core r !! k.
Proof.
  intros Hk. unfold _analyze_documentation, doc_core.
  rewrite doc_fold, app_nil_l.
  destruct (code_file_contents r); [reflexivity|].
  rewrite lookup_insert_ne by congruence. reflexivity.
Qed.

Lemma doc_documentation_files r :
  _analyze_documentation r !! "documentation_files"%string =
  Some (VNum (nat_q (length (List.filter (doc_exists r) doc_file_names)))).
Proof.
  rewrite doc_lookup_core by discriminate. unfold doc_core.
  rewrite lookup_insert_ne by discriminate. apply lookup_insert_eq.
Qed.

Lemma doc_has_readme r :
  _analyze_documentation r !! "has_readme"%string =
  Some (VBool (doc_exists r "README.md" || doc_exists r "README.rst" ||
               doc_exists r "README.txt")).
Proof.
  rewrite doc_lookup_core by discriminate. unfold doc_core.
  rewrite lookup_insert_eq. unfold doc_file_names. cbn [List.filter].
  destruct (doc_exists r "README.md"), (doc_exists r "README.rst"),
    (doc_exists r "README.txt"), (doc_exists r "CHANGELOG.md"),
    (doc_exists r "CONTRIBUTING.md"); reflexivity.
Qed.

Lemma doc_readme_length r :
  _analyze_documentation r !! "readme_length"%string =
  option_map (fun c => VNum (nat_q (String.length c))) (last_readme r).
Proof.
  rewrite doc_lookup_core by discriminate. unfold doc_core.
  rewrite !lookup_insert_ne by discriminate.
  unfold doc_file_names. cbn [foldl].
  rewrite !doc_upd_readme_length. cbn [String.prefix Ascii.eqb Bool.eqb andb].
  rewrite lookup_empty. unfold last_readme.
  destruct (read_if r "README.txt"), (read_if r "README.rst"), (read_if r "README.md");
    reflexivity.
Qed.

(** X18: [_analyze_documentation] counts the documentation files that exist,
    reports a README when one of the three README files exists (even when
    it cannot be read), takes [readme_length] from the last readable README
    in the order md, rst, txt, and records a [code_documentation_ratio] in
    [0, 1] exactly when there are code files. *)
Theorem documentation_metrics_shape (r : doc_repo) :
  let m := _analyze_documentation r in
  m !! "documentation_files"%string =
    Some (VNum (nat_q (length (List.filter (doc_exists r) doc_file_names)))) /\
  m !! "has_readme"%string =
    Some (VBool (doc_exists r "README.md" || doc_exists r "README.rst" ||
                 doc_exists r "README.txt")) /\
  m !! "readme_length"%string =
    option_map (fun c => VNum (nat_q (String.length c))) (last_readme r) /\
  (code_file_contents r = [] -> m !! "code_documentation_ratio"%string = None) /\
  (code_file_contents r <> [] ->
   exists q, m !! "code_documentation_ratio"%string = Some (VNum q) /\ 0 <= q <= 1).
Proof.
  intros m. subst m.
  split; [apply doc_documentation_files|].
  split; [apply doc_has_readme|].
  split; [apply doc_readme_length|].
  unfold _analyze_documentation. rewrite doc_fold, app_nil_l.
  destruct (code_file_contents r) as [|c cs] eqn:Hc.
  - split; [|intros Hne; contradiction].
    intros _. rewrite !lookup_insert_ne by discriminate.
    rewrite doc_fold_other by discriminate. apply lookup_empty.
  - split; [intros Hnil; discriminate|].
    intros _. eexists. split; [apply lookup_insert_eq|].
    set (sample := firstn 50 (c :: cs)).
    assert (Hs : (0 < length sample)%nat) by (subst sample; simpl; lia).
    pose proof (count_if_le (fun c => match c with Some c => is_documented c | None => false end)
                            sample) as Hle.
    split; [apply frac_nonneg; exact Hs|].
    apply Qle_shift_div_r; [apply nat_q_pos; exact Hs|].
    rewrite Qmult_1_l. apply nat_q_le. exact Hle.
Qed.

Lemma doc_part_le_architecture_score (m : metrics) :
  (if negb (truthy (get m "has_readme" (VBool false))) then 1.0
   else if qlt (num (get m "readme_length" (VNum 0))) 500 then 0.5 else 0) +
  (if qlt (num (get m "documentation_files" (VNum 0))) 2 then 0.5 else 0)
  <= _calculate_architecture_score m.
Proof.
  unfold _calculate_architecture_score. cbv zeta.
  pose proof (directory_depth_penalty_nonneg (num (get m "max_directory_depth" (VNum 0)))).
  apply pymin_ge;
    repeat match goal with |- context [if ?c then _ else _] => destruct c end; lra.
Qed.

Lemma get_py_update_l (m d : metrics) k v dflt :
  d !! k = Some v -> get (py_update m d) k dflt = v.
Proof.
  intros H. unfold get, py_update. rewrite (lookup_union_Some_l _ _ _ _ H). reflexivity.
Qed.

(** X19: whatever the directory, configuration and API analyses report (none
    of them writes [readme_length]), the architecture score of the merged
    [analyze_architecture] metrics is at least the documentation floor of the
    repository. As [readme_length] is measured on the last readable README
    in the order md, rst, txt, a short README.txt next to a long README.md
    still costs 0.5. *)
Theorem architecture_score_documentation_floor (structure configuration apis : metrics)
  (r : doc_repo) :
  structure !! "readme_length"%string = None ->
  configuration !! "readme_length"%string = None ->
  apis !! "readme_length"%string = None ->
  documentation_floor r <=
  _calculate_architecture_score (analyze_architecture structure configuration apis r).
Proof.
  intros Hs Hc Ha.
  eapply Qle_trans; [|apply doc_part_le_architecture_score].
  unfold analyze_architecture. cbv zeta.
  rewrite (get_py_update_l _ _ _ _ _ (doc_has_readme r)).
  rewrite (get_py_update_l _ _ _ _ _ (doc_documentation_files r)).
  unfold documentation_floor. cbn [truthy num].
  assert (Hlen : num (get (py_update (py_update (py_update (py_update ∅ structure)
                      configuration) apis) (_analyze_documentation r))
                      "readme_length" (VNum 0)) =
                 match last_readme r with
                 | Some c => nat_q (String.length c)
                 | None => 0
                 end).
  { pose proof (doc_readme_length r) as Hl.
    destruct (last_readme r) as [c|]; cbn [option_map] in Hl.
    - rewrite (get_py_update_l _ _ _ _ _ Hl). reflexivity.
    - unfold get, py_update.
      rewrite lookup_union_None_2; [reflexivity|exact Hl|].
      apply lookup_union_None_2; [exact Ha|].
      apply lookup_union_None_2; [exact Hc|].
      apply lookup_union_None_2; [exact Hs|apply lookup_empty]. }
  rewrite Hlen. apply Qle_refl.
Qed.

(** The witness repository: a long README.md next to a short README.txt. *)
Definition stub_readme_repo : doc_repo := {|
  doc_exists := fun f => String.eqb f "README.md" || String.eqb f "README.txt";
  doc_read := fun f => if String.eqb f "README.md"
                       then Some (string_of_list_ascii (repeat "a"%char 600))
                       else Some "TODO"%string;
  code_file_contents := []
|}.

Lemma architecture_score_documentation_floor_witness :
  (documentation_floor stub_readme_repo == 0.5) /\
  (0.5 <= _calculate_architecture_score (analyze_architecture ∅ ∅ ∅ stub_readme_repo)).
Proof.
  split; [vm_compute; reflexivity|].
  assert (H : documentation_floor stub_readme_repo == 0.5) by (vm_compute; reflexivity).
  rewrite <- H.
  apply (architecture_score_documentation_floor ∅ ∅ ∅ stub_readme_repo);
    apply lookup_empty.
Defined.
